(** * ply.ink: the PDF viewer's state handling, embedded from the sources

    Sources embedded here:
    - [frontend/src/lib/pdf-worker.ts]   ([isPDFFile])
    - [frontend/src/App.tsx]             (the [App] component's handlers)
    - [frontend/src/components/pdf/PDFSidebar.tsx], lines 119 to 516: the
      [PDFViewer] component with tool support (mirroring, load and render
      effects, keyboard, wheel and pan handlers, unmount cleanup) and the
      [usePDFNavigation] hook; lines 1 to 118: the [PDFSidebar] component;
      lines 517 to 807: the earlier [PDFViewer], for its [handleKeyDown]
    - [unnamed/part_001]: the [PDFToolbar] component (page field handlers,
      zoom percentage, [disabled] attributes)

    Conventions of the embedding.
    - A React state cell is a record field; a handler is a function from the
      state it is dispatched in to the state after its [set...] calls.  React
      re-renders between two dispatched events, so a handler's closure reads
      the state current at dispatch.
    - JavaScript numbers holding page numbers are integers ([Z]); numbers
      holding scales are exact rationals ([Q]), compared with [==].  The
      constants [1.2], [0.9], [1.1], [0.5], [3] are the source's.  The code
      computes in IEEE doubles: what is stated of scales is order, bounds
      and the value of one operation; no statement equates the results of
      two different chains of multiplications and divisions.
    - [null]/[undefined] is [None].
    - An [async] function is cut at its [await]s: the part run at the call,
      and one continuation per way the awaited promise can settle.  The
      document backend (pdfjs-dist) decides which continuation runs and when;
      it is the environment of the model.
    - A callback prop invoked by the viewer ([onPageChange?.(n)] ...) is an
      output of the viewer's step; [App] wires each output to its handler. *)

From Stdlib Require Import ZArith QArith Qminmax Qround Lia Lqa.
From Stdlib Require Import Ascii String DecimalString DecimalPos DecimalZ.
From stdpp Require Import base list strings.

Local Open Scope Z_scope.

(** ** Shared data *)

(** pdfjs-dist's [PDFDocumentProxy]: an opaque handle of which only
    [numPages] is read.  [docId] stands for the object's identity. *)
Record PDFDocumentProxy := mkDoc { docId : nat; numPages : Z }.

(** The DOM [File]: its name, its MIME type and its bytes. *)
Record File := mkFile { name : string; type : string; bytes : list Byte.byte }.

(** [types/pdf.ts]: [export type ToolType = 'cursor' | 'hand'] *)
Inductive ToolType := cursor | hand.

(** A value landing in a [catch] clause: an [Error] instance with its
    [name] and [message], or any other value. *)
Inductive Thrown :=
| ErrorObj (ename emessage : string)
| NonError.

(** [(error as Error).message]: [undefined] on a value that is no [Error]. *)
Definition message (e : Thrown) : option string :=
  match e with
  | ErrorObj _ m => Some m
  | NonError => None
  end.

Definition Math_min (a b : Q) : Q := Qmin a b.
Definition Math_max (a b : Q) : Q := Qmax a b.

(** [deltaY > 0] *)
Definition gt0 (x : Q) : bool := negb (Qle_bool x 0).

(** The updaters [prev => Math.min(prev * 1.2, 3)] and
    [prev => Math.max(prev / 1.2, 0.5)], passed to [setScale] by [App]'s zoom
    handlers and by the viewer's [+]/[=] and [-] keys alike. *)
Definition zoomIn (prev : Q) : Q := Math_min (prev * 1.2) 3.
Definition zoomOut (prev : Q) : Q := Math_max (prev / 1.2) 0.5.

(** ** lib/pdf-worker.ts *)

(** [export const isPDFFile = (file) => file.type === 'application/pdf'] *)
Definition isPDFFile (f : File) : bool :=
  bool_decide (type f = "application/pdf"%string).

(** Effects of [App] on the page outside its React state. *)
Inductive AppEffect :=
| DownloadBlob (filename : string) (data : list Byte.byte)
| AppConsoleError.

(** How the body of [handleExportFile]'s [try] ends. *)
Inductive ExportOutcome := ExportDone | ExportThrew.

(** ** App.tsx *)
Module App.

Record State := mkState {
  currentFile : option File;
  pdf : option PDFDocumentProxy;
  currentPage : Z;
  totalPages : Z;
  scale : Q;
  loading : bool;
  error : option string;
  sidebarOpen : bool;
  currentTool : ToolType
}.

(** The [React.useState] initial values. *)
Definition init : State :=
  {| currentFile := None; pdf := None; currentPage := 1; totalPages := 0;
     scale := 1.2%Q; loading := false; error := None; sidebarOpen := false;
     currentTool := cursor |}.

Definition setCurrentFile (x : option File) (s : State) : State :=
  mkState x (pdf s) (currentPage s) (totalPages s) (scale s) (loading s)
          (error s) (sidebarOpen s) (currentTool s).
Definition setPdf (x : option PDFDocumentProxy) (s : State) : State :=
  mkState (currentFile s) x (currentPage s) (totalPages s) (scale s)
          (loading s) (error s) (sidebarOpen s) (currentTool s).
Definition setCurrentPage (x : Z) (s : State) : State :=
  mkState (currentFile s) (pdf s) x (totalPages s) (scale s) (loading s)
          (error s) (sidebarOpen s) (currentTool s).
Definition setTotalPages (x : Z) (s : State) : State :=
  mkState (currentFile s) (pdf s) (currentPage s) x (scale s) (loading s)
          (error s) (sidebarOpen s) (currentTool s).
Definition setScale (x : Q) (s : State) : State :=
  mkState (currentFile s) (pdf s) (currentPage s) (totalPages s) x
          (loading s) (error s) (sidebarOpen s) (currentTool s).
Definition setLoading (x : bool) (s : State) : State :=
  mkState (currentFile s) (pdf s) (currentPage s) (totalPages s) (scale s)
          x (error s) (sidebarOpen s) (currentTool s).
Definition setError (x : option string) (s : State) : State :=
  mkState (currentFile s) (pdf s) (currentPage s) (totalPages s) (scale s)
          (loading s) x (sidebarOpen s) (currentTool s).
Definition setSidebarOpen (x : bool) (s : State) : State :=
  mkState (currentFile s) (pdf s) (currentPage s) (totalPages s) (scale s)
          (loading s) (error s) x (currentTool s).
Definition setCurrentTool (x : ToolType) (s : State) : State :=
  mkState (currentFile s) (pdf s) (currentPage s) (totalPages s) (scale s)
          (loading s) (error s) (sidebarOpen s) x.

(** [handleFileChange]: [files] is [event.target.files]. *)
Definition handleFileChange (files : list File) (s : State) : State :=
  match head files with
  | None => s
  | Some file =>
      if negb (isPDFFile file)
      then setError (Some "Please select a valid PDF file"%string) s
      else setError None (setCurrentFile (Some file) s)
  end.

(** [handleDrop]: [files] is [event.dataTransfer.files]. *)
Definition handleDrop (files : list File) (s : State) : State :=
  match head files with
  | None => s
  | Some file =>
      if negb (isPDFFile file)
      then setError (Some "Please drop a valid PDF file"%string) s
      else setError None (setCurrentFile (Some file) s)
  end.

Definition handleClosePDF (s : State) : State :=
  setSidebarOpen false
    (setError None
      (setScale 1.2%Q
        (setTotalPages 0
          (setCurrentPage 1
            (setPdf None
              (setCurrentFile None s)))))).

(** [handleExportFile]: nothing without a current file; otherwise the
    [try] body either runs to its end (the blob is downloaded, then the
    document is closed) or throws (the [catch] sets the error). *)
Definition handleExportFile (o : ExportOutcome) (s : State)
  : State * list AppEffect :=
  match currentFile s with
  | None => (s, [])
  | Some f =>
      match o with
      | ExportDone => (handleClosePDF s, [DownloadBlob (name f) (bytes f)])
      | ExportThrew =>
          (setError (Some "Failed to export PDF"%string) s, [AppConsoleError])
      end
  end.

Definition handleToolChange (tool : ToolType) (s : State) : State :=
  setCurrentTool tool s.

Definition handleLoadSuccess (pdfDoc : PDFDocumentProxy) (s : State) : State :=
  setLoading false
    (setCurrentPage 1 (setTotalPages (numPages pdfDoc) (setPdf (Some pdfDoc) s))).

Definition handleLoadError (e : Thrown) (s : State) : State :=
  setLoading false (setError (message e) s).

Definition handlePageChange (page : Z) (s : State) : State :=
  if (1 <=? page) && (page <=? totalPages s)
  then setCurrentPage page s else s.

Definition handlePrevPage (s : State) : State :=
  if 1 <? currentPage s then setCurrentPage (currentPage s - 1) s else s.

Definition handleNextPage (s : State) : State :=
  if currentPage s <? totalPages s
  then setCurrentPage (currentPage s + 1) s else s.

Definition handleZoomIn (s : State) : State :=
  setScale (zoomIn (scale s)) s.

Definition handleZoomOut (s : State) : State :=
  setScale (zoomOut (scale s)) s.

Definition handleToggleSidebar (s : State) : State :=
  setSidebarOpen (negb (sidebarOpen s)) s.

End App.

(** ** The [PDFViewer] component (the version with tool support) *)
Module Viewer.

(** [PDFViewerProps], the data props.  The callback props are the
    constructors [OnLoadSuccess], [OnLoadError], [OnPageChange] of
    [Output]. *)
Record Props := mkProps {
  file : option File;
  externalScale : option Q;
  externalCurrentPage : option Z;
  currentTool : ToolType
}.

(** Where one invocation of the async [renderPage] stands: suspended at
    [await pdf.getPage(pageNumber)], suspended at
    [await renderTaskRef.current.promise], or returned. *)
Inductive Stage := AwaitGetPage | AwaitRaster | Settled.

(** One invocation of [renderPage]: the [pageNumber] argument and the
    [activeScale] of its closure, its stage, and whether [cancel()] was
    called on the render task it created.  An invocation is identified by
    its position in [calls], in request order, and so is the render task
    it creates (each invocation creates at most one). *)
Record RenderCall := mkCall {
  pageNumber : Z;
  activeScale : Q;
  stage : Stage;
  cancelRequested : bool
}.

Record State := mkState {
  pdf : option PDFDocumentProxy;
  currentPage : Z;
  loading : bool;
  scale : Q;
  isPanning : bool;
  lastPanPoint : Z * Z;
  (** [renderTaskRef.current]: the stored render task, by its invocation *)
  renderTaskRef : option nat;
  (** [canvasRef.current] is not null *)
  canvasRef : bool;
  (** the wheel effect's [wheelTimeout]: the [deltaY] of the event whose
      timer is pending *)
  wheelTimeout : option Q;
  calls : list RenderCall
}.

Definition init : State :=
  {| pdf := None; currentPage := 1; loading := false; scale := 1.2%Q;
     isPanning := false; lastPanPoint := (0, 0); renderTaskRef := None;
     canvasRef := false; wheelTimeout := None; calls := [] |}.

Definition setPdf (x : option PDFDocumentProxy) (v : State) : State :=
  mkState x (currentPage v) (loading v) (scale v) (isPanning v)
          (lastPanPoint v) (renderTaskRef v) (canvasRef v) (wheelTimeout v)
          (calls v).
Definition setCurrentPage (x : Z) (v : State) : State :=
  mkState (pdf v) x (loading v) (scale v) (isPanning v) (lastPanPoint v)
          (renderTaskRef v) (canvasRef v) (wheelTimeout v) (calls v).
Definition setLoading (x : bool) (v : State) : State :=
  mkState (pdf v) (currentPage v) x (scale v) (isPanning v) (lastPanPoint v)
          (renderTaskRef v) (canvasRef v) (wheelTimeout v) (calls v).
Definition setScale (x : Q) (v : State) : State :=
  mkState (pdf v) (currentPage v) (loading v) x (isPanning v)
          (lastPanPoint v) (renderTaskRef v) (canvasRef v) (wheelTimeout v)
          (calls v).
Definition setRenderTaskRef (x : option nat) (v : State) : State :=
  mkState (pdf v) (currentPage v) (loading v) (scale v) (isPanning v)
          (lastPanPoint v) x (canvasRef v) (wheelTimeout v) (calls v).
Definition setCanvasRef (x : bool) (v : State) : State :=
  mkState (pdf v) (currentPage v) (loading v) (scale v) (isPanning v)
          (lastPanPoint v) (renderTaskRef v) x (wheelTimeout v) (calls v).
Definition setWheelTimeout (x : option Q) (v : State) : State :=
  mkState (pdf v) (currentPage v) (loading v) (scale v) (isPanning v)
          (lastPanPoint v) (renderTaskRef v) (canvasRef v) x (calls v).
Definition setCalls (x : list RenderCall) (v : State) : State :=
  mkState (pdf v) (currentPage v) (loading v) (scale v) (isPanning v)
          (lastPanPoint v) (renderTaskRef v) (canvasRef v) (wheelTimeout v) x.

Definition setStage (s : Stage) (c : RenderCall) : RenderCall :=
  mkCall (pageNumber c) (activeScale c) s (cancelRequested c).
Definition markCancelled (c : RenderCall) : RenderCall :=
  mkCall (pageNumber c) (activeScale c) (stage c) true.

(** What the viewer does to its collaborators and to the page. *)
Inductive Output :=
| OnLoadSuccess (d : PDFDocumentProxy)
| OnLoadError (e : Thrown)
| OnPageChange (n : Z)
| ConsoleError
| PreventDefault
| CancelTask (id : nat)       (** [renderTaskRef.current.cancel()] *)
| ResizeCanvas (id : nat)     (** [canvas.height = ..; canvas.width = ..] *)
| StartRaster (id : nat).     (** [page.render(renderContext)] *)

(** [externalScale ?? scale] and [externalCurrentPage ?? currentPage] *)
Definition activeScaleOf (p : Props) (v : State) : Q :=
  match externalScale p with Some x => x | None => scale v end.
Definition activePage (p : Props) (v : State) : Z :=
  match externalCurrentPage p with Some x => x | None => currentPage v end.

(** *** Loading a document *)

(** How [loadPDF]'s awaited promises settle: a document, or a rejection
    (of [file.arrayBuffer()] or of [getDocument(..).promise]). *)
Inductive LoadResult :=
| LoadResolved (d : PDFDocumentProxy)
| LoadRejected (e : Thrown).

(** The file effect up to [loadPDF]'s first [await]. *)
Definition fileEffect (p : Props) (v : State) : State :=
  match file p with
  | None => setPdf None v
  | Some _ => setLoading true v
  end.

(** The rest of [loadPDF]: [try] tail or [catch], then [finally]. *)
Definition loadPDFSettled (r : LoadResult) (v : State) : State * list Output :=
  match r with
  | LoadResolved d =>
      (setLoading false (setCurrentPage 1 (setPdf (Some d) v)),
       [OnLoadSuccess d])
  | LoadRejected e =>
      (setLoading false v, [ConsoleError; OnLoadError e])
  end.

(** *** Rendering a page *)

(** [renderPage] up to [await pdf.getPage(pageNumber)]. *)
Definition renderPage (n : Z) (sc : Q) (v : State) : State * list Output :=
  let v1 := setLoading true v in
  let '(v2, out) :=
    match renderTaskRef v1 with
    | Some t =>
        (setRenderTaskRef None
           (setCalls (alter markCancelled t (calls v1)) v1),
         [CancelTask t])
    | None => (v1, [])
    end in
  (setCalls (calls v2 ++ [mkCall n sc AwaitGetPage false]) v2, out).

(** The render effect's body for a given page and scale:
    [if (!pdf || !canvasRef.current) return; renderPage(activePage)]. *)
Definition renderEffectAt (n : Z) (sc : Q) (v : State) : State * list Output :=
  match pdf v with
  | None => (v, [])
  | Some _ => if canvasRef v then renderPage n sc v else (v, [])
  end.

Definition renderEffect (p : Props) (v : State) : State * list Output :=
  renderEffectAt (activePage p v) (activeScaleOf p v) v.

(** [renderPage]'s [catch] clause. *)
Definition catchRender (e : Thrown) : list Output :=
  match e with
  | ErrorObj n _ =>
      if negb (String.eqb n "RenderingCancelledException")
      then [ConsoleError; OnLoadError e] else []
  | NonError => []
  end.

Definition settle (id : nat) (v : State) : State :=
  setCalls (alter (setStage Settled) id (calls v)) v.

(** What [canvasRef.current!.getContext('2d')] throws on a null ref. *)
Definition nullCanvasError : Thrown :=
  ErrorObj "TypeError" "Cannot read properties of null (reading 'getContext')".

(** [pdf.getPage] resolved for invocation [id]: size the canvas, start
    the raster, store its task, suspend on its promise. *)
Definition getPageResolved (id : nat) (v : State) : State * list Output :=
  match calls v !! id with
  | Some c =>
      match stage c with
      | AwaitGetPage =>
          if canvasRef v
          then (setRenderTaskRef (Some id)
                  (setCalls (alter (setStage AwaitRaster) id (calls v)) v),
                [ResizeCanvas id; StartRaster id])
          else (setLoading false (settle id v), catchRender nullCanvasError)
      | _ => (v, [])
      end
  | None => (v, [])
  end.

(** [pdf.getPage] rejected for invocation [id]: [catch], [finally]. *)
Definition getPageRejected (id : nat) (e : Thrown) (v : State)
  : State * list Output :=
  match calls v !! id with
  | Some c =>
      match stage c with
      | AwaitGetPage => (setLoading false (settle id v), catchRender e)
      | _ => (v, [])
      end
  | None => (v, [])
  end.

(** The render task's promise resolved for invocation [id]:
    [renderTaskRef.current = null; onPageChange?.(pageNumber)], [finally]. *)
Definition rasterResolved (id : nat) (v : State) : State * list Output :=
  match calls v !! id with
  | Some c =>
      match stage c with
      | AwaitRaster =>
          (setLoading false (setRenderTaskRef None (settle id v)),
           [OnPageChange (pageNumber c)])
      | _ => (v, [])
      end
  | None => (v, [])
  end.

(** The render task's promise rejected for invocation [id]. *)
Definition rasterRejected (id : nat) (e : Thrown) (v : State)
  : State * list Output :=
  match calls v !! id with
  | Some c =>
      match stage c with
      | AwaitRaster => (setLoading false (settle id v), catchRender e)
      | _ => (v, [])
      end
  | None => (v, [])
  end.

(** *** Keyboard *)

Inductive Target := InputElement | TextAreaElement | SelectElement | OtherTarget.

Record ScrollBox := mkBox { scrollTop : Z; clientHeight : Z; scrollHeight : Z }.

(** A [keydown] event as [handleKeyDown] reads it; [container] is what
    [document.querySelector('.overflow-auto')] returns at dispatch. *)
Record KeyboardEvent := mkKey {
  key : string;
  target : Target;
  container : option ScrollBox
}.

(** [if (externalCurrentPage !== undefined) onPageChange?.(newPage)
     else setCurrentPage(newPage)] *)
Definition goTo (p : Props) (newPage : Z) (v : State) : State * list Output :=
  match externalCurrentPage p with
  | Some _ => (v, [OnPageChange newPage])
  | None => (setCurrentPage newPage v, [])
  end.

Definition atTop (c : option ScrollBox) : bool :=
  match c with
  | Some b => scrollTop b =? 0
  | None => false
  end.

Definition atBottom (c : option ScrollBox) : bool :=
  match c with
  | Some b => scrollHeight b - 5 <=? scrollTop b + clientHeight b
  | None => false
  end.

Definition handleKeyDown (p : Props) (ev : KeyboardEvent) (v : State)
  : State * list Output :=
  match pdf v with
  | None => (v, [])
  | Some doc =>
      match target ev with
      | InputElement | TextAreaElement | SelectElement => (v, [])
      | OtherTarget =>
          let k := key ev in
          if String.eqb k "ArrowLeft" then
            if 1 <? activePage p v
            then let '(v', o) := goTo p (activePage p v - 1) v in
                 (v', PreventDefault :: o)
            else (v, [PreventDefault])
          else if String.eqb k "ArrowRight" then
            if activePage p v <? numPages doc
            then let '(v', o) := goTo p (activePage p v + 1) v in
                 (v', PreventDefault :: o)
            else (v, [PreventDefault])
          else if String.eqb k "ArrowUp" then
            if (1 <? activePage p v) && atTop (container ev)
            then let '(v', o) := goTo p (activePage p v - 1) v in
                 (v', PreventDefault :: o)
            else (v, [])
          else if String.eqb k "ArrowDown" then
            if (activePage p v <? numPages doc) && atBottom (container ev)
            then let '(v', o) := goTo p (activePage p v + 1) v in
                 (v', PreventDefault :: o)
            else (v, [])
          else if String.eqb k "+" || String.eqb k "=" then
            (setScale (zoomIn (scale v)) v, [PreventDefault])
          else if String.eqb k "-" then
            (setScale (zoomOut (scale v)) v, [PreventDefault])
          else (v, [])
      end
  end.

(** *** Wheel *)

Record WheelEvent := mkWheel { ctrlKey : bool; deltaY : Q }.

(** The updater passed to [setScale] by the wheel timer:
    [delta = event.deltaY > 0 ? 0.9 : 1.1;
     prev => Math.max(0.5, Math.min(3, prev * delta))]. *)
Definition wheelZoom (dy : Q) (prev : Q) : Q :=
  let delta := if gt0 dy then 0.9%Q else 1.1%Q in
  Math_max 0.5 (Math_min 3 (prev * delta)).

(** [handleWheel]: with ctrl held, replace the pending timer. *)
Definition handleWheel (ev : WheelEvent) (v : State) : State * list Output :=
  if ctrlKey ev
  then (setWheelTimeout (Some (deltaY ev)) v, [PreventDefault])
  else (v, []).

(** The 16 ms timer fires. *)
Definition wheelTimeoutFired (v : State) : State :=
  match wheelTimeout v with
  | Some dy => setWheelTimeout None (setScale (wheelZoom dy (scale v)) v)
  | None => v
  end.

(** *** The render pipeline as a machine driven by its environment *)

Inductive Event :=
| Request (n : Z) (sc : Q)             (** the render effect runs *)
| GetPageResolved (id : nat)
| GetPageRejected (id : nat) (e : Thrown)
| RasterResolved (id : nat)
| RasterRejected (id : nat) (e : Thrown)
| CanvasRef (mounted : bool).          (** React sets [canvasRef.current] *)

Definition step (ev : Event) (v : State) : State * list Output :=
  match ev with
  | Request n sc => renderEffectAt n sc v
  | GetPageResolved id => getPageResolved id v
  | GetPageRejected id e => getPageRejected id e v
  | RasterResolved id => rasterResolved id v
  | RasterRejected id e => rasterRejected id e v
  | CanvasRef b => (setCanvasRef b v, [])
  end.

Fixpoint run (evs : list Event) (v : State) : State * list Output :=
  match evs with
  | [] => (v, [])
  | ev :: evs' =>
      let '(v1, o1) := step ev v in
      let '(v2, o2) := run evs' v1 in
      (v2, o1 ++ o2)
  end.

(** Invocation [id] is the latest request: the last element of [calls]. *)
Definition isLatest (id : nat) (v : State) : bool :=
  Nat.eqb (S id) (length (calls v)).

(** The invocation an environment event resumes. *)
Definition resumed (ev : Event) : option nat :=
  match ev with
  | GetPageResolved id | GetPageRejected id _
  | RasterResolved id | RasterRejected id _ => Some id
  | Request _ _ | CanvasRef _ => None
  end.

(** Outputs that change what is displayed or report a page as rendered. *)
Definition visible (o : Output) : bool :=
  match o with
  | OnPageChange _ | ResizeCanvas _ | StartRaster _ => true
  | _ => false
  end.

(** Along a run, every step with a visible output resumes the invocation
    that is the latest request at that moment. *)
Fixpoint updatesOnlyByLatest (evs : list Event) (v : State) : bool :=
  match evs with
  | [] => true
  | ev :: evs' =>
      let '(v', o) := step ev v in
      match resumed ev with
      | Some id => implb (existsb visible o) (isLatest id v)
      | None => true
      end && updatesOnlyByLatest evs' v'
  end.

Definition awaitsGetPage (c : RenderCall) : bool :=
  match stage c with AwaitGetPage => true | _ => false end.

(** Two conditions on the environment.  A backend that honours
    cancellation never resolves the promise of a task whose [cancel()]
    was called.  A request that does not overtake finds no earlier
    invocation still suspended at [pdf.getPage]. *)
Definition permitted (ev : Event) (v : State) : bool :=
  match ev with
  | RasterResolved id =>
      match calls v !! id with
      | Some c => negb (cancelRequested c)
      | None => true
      end
  | Request _ _ => forallb (fun c => negb (awaitsGetPage c)) (calls v)
  | _ => true
  end.

Fixpoint disciplined (evs : list Event) (v : State) : bool :=
  match evs with
  | [] => true
  | ev :: evs' => permitted ev v && disciplined evs' (fst (step ev v))
  end.

(** What the two conditions maintain: an invocation suspended at
    [pdf.getPage], or suspended on a task that was not cancelled, is the
    latest request, and in the second case its task is the stored one. *)
Definition pipelineOwnedByLatest (v : State) : Prop :=
  forall id c, calls v !! id = Some c ->
    match stage c with
    | AwaitGetPage => isLatest id v = true
    | AwaitRaster =>
        cancelRequested c = false ->
        isLatest id v = true /\ renderTaskRef v = Some id
    | Settled => True
    end.

Definition pageCommits (o : list Output) : list Z :=
  omap (fun x => match x with OnPageChange n => Some n | _ => None end) o.

Definition errorEvents (o : list Output) : list Thrown :=
  omap (fun x => match x with OnLoadError e => Some e | _ => None end) o.

End Viewer.

(** ** The wiring of the viewer into [App] *)

(** The props [App] passes to [<PDFViewer>]. *)
Definition propsOf (a : App.State) : Viewer.Props :=
  {| Viewer.file := App.currentFile a;
     Viewer.externalScale := Some (App.scale a);
     Viewer.externalCurrentPage := Some (App.currentPage a);
     Viewer.currentTool := App.currentTool a |}.

(** [onLoadSuccess={handleLoadSuccess} onLoadError={handleLoadError}
     onPageChange={handlePageChange}], for a callback that reaches the
     handlers of the current render.  A callback from an invocation of
     [renderPage] started under another [totalPages] goes through
     [deliverFrom] below. *)
Definition deliver (a : App.State) (o : Viewer.Output) : App.State :=
  match o with
  | Viewer.OnLoadSuccess d => App.handleLoadSuccess d a
  | Viewer.OnLoadError e => App.handleLoadError e a
  | Viewer.OnPageChange n => App.handlePageChange n a
  | _ => a
  end.

Definition deliverAll (o : list Viewer.Output) (a : App.State) : App.State :=
  fold_left deliver o a.

(** ** The two components together *)

Definition System : Type := App.State * Viewer.State.

(** A step of the viewer inside [App]: its outputs reach [App]'s handlers. *)
Definition inApp (r : Viewer.State * list Viewer.Output) (a : App.State)
  : System :=
  (deliverAll (snd r) a, fst r).

(** The user picks [f] in the file dialog; the viewer's file effect runs. *)
Definition pickFile (f : File) (s : System) : System :=
  let a' := App.handleFileChange [f] (fst s) in
  (a', Viewer.fileEffect (propsOf a') (snd s)).

(** [loadPDF]'s promise settles. *)
Definition loadSettled (r : Viewer.LoadResult) (s : System) : System :=
  inApp (Viewer.loadPDFSettled r (snd s)) (fst s).

(** The page intents: a jump ([onPageChange(page)] from the toolbar's page
    field, [onPageSelect(page)] from the sidebar), the toolbar's previous
    and next buttons, and a key pressed over the viewer. *)
Inductive Intent :=
| PageJump (page : Z)
| PrevPage
| NextPage
| Key (ev : Viewer.KeyboardEvent).

Definition applyIntent (i : Intent) (s : System) : System :=
  match i with
  | PageJump page => (App.handlePageChange page (fst s), snd s)
  | PrevPage => (App.handlePrevPage (fst s), snd s)
  | NextPage => (App.handleNextPage (fst s), snd s)
  | Key ev => inApp (Viewer.handleKeyDown (propsOf (fst s)) ev (snd s)) (fst s)
  end.

(** [App]'s state cells, to speak about which of them a handler writes. *)
Inductive Field :=
| FCurrentFile | FPdf | FCurrentPage | FTotalPages | FScale
| FLoading | FError | FSidebarOpen | FCurrentTool.

Definition sameField (f : Field) (s s' : App.State) : Prop :=
  match f with
  | FCurrentFile => App.currentFile s = App.currentFile s'
  | FPdf => App.pdf s = App.pdf s'
  | FCurrentPage => App.currentPage s = App.currentPage s'
  | FTotalPages => App.totalPages s = App.totalPages s'
  | FScale => (App.scale s == App.scale s')%Q
  | FLoading => App.loading s = App.loading s'
  | FError => App.error s = App.error s'
  | FSidebarOpen => App.sidebarOpen s = App.sidebarOpen s'
  | FCurrentTool => App.currentTool s = App.currentTool s'
  end.

(** [handleClosePDF] never changes cell [f]. *)
Definition untouchedByClose (f : Field) : Prop :=
  forall s, sameField f s (App.handleClosePDF s).

(** The wheel zoom as the specification words it:
    [scale * (deltaY > 0 ? 1/WHEEL_FACTOR : WHEEL_FACTOR)] with wheel factor
    1.1, clamped to [0.5, 3.0]. *)
Definition spec_zoomByWheel (sc dy : Q) : Q :=
  Qmax 0.5 (Qmin 3 (sc * (if gt0 dy then 1 / 1.1 else 1.1))).

Definition inScaleBounds (x : Q) : Prop := (0.5 <= x /\ x <= 3)%Q.

Definition pageInRange (a : App.State) : Prop :=
  1 <= App.currentPage a <= App.totalPages a.

(** States used in the examples: a five-page document and two files. *)
Definition doc5 : PDFDocumentProxy := mkDoc 0 5.
Definition fileA : File := mkFile "a.pdf" "application/pdf" [].
Definition fileB : File := mkFile "b.pdf" "application/pdf" [].
Definition notes : File := mkFile "notes.pdf" "text/plain" [].

(** The viewer with [doc5] loaded and its canvas mounted. *)
Definition ready : Viewer.State :=
  Viewer.setCanvasRef true (Viewer.setPdf (Some doc5) Viewer.init).

(** [App] after [fileA] was picked and loaded as [doc5]. *)
Definition loaded : System :=
  loadSettled (Viewer.LoadResolved doc5) (pickFile fileA (App.init, Viewer.init)).

Definition RenderingCancelledException : string := "RenderingCancelledException".

(** ** Every way [App]'s state changes *)

(** [handlePageChange] as a render created it: [useCallback] with deps
    [totalPages] makes it test the page against the [totalPages] of that
    render, here [captured], whenever it is called. *)
Definition handlePageChangeFrom (captured page : Z) (s : App.State) : App.State :=
  if (1 <=? page) && (page <=? captured) then App.setCurrentPage page s else s.

(** One constructor per handler of [App.tsx] that calls a state setter;
    [CloseSidebar] is the [onClose] passed to the sidebar.
    [handleImportFile] and [handleDragOver] set no state.  [PageChange] is
    [handlePageChange] called through the current render, as the toolbar,
    the sidebar and the key handler do; [LatePageChange] is a call of the
    [handlePageChange] of an earlier render, as an invocation of
    [renderPage] makes when its raster resolves: [captured] is the
    [totalPages] of the render in which its effect ran. *)
Inductive Action :=
| FileChange (files : list File)
| Drop (files : list File)
| ClosePDF
| ExportFile (o : ExportOutcome)
| ToolChange (tool : ToolType)
| LoadSuccess (d : PDFDocumentProxy)
| LoadError (e : Thrown)
| PageChange (page : Z)
| PrevPageClick
| NextPageClick
| ZoomInClick
| ZoomOutClick
| ToggleSidebar
| CloseSidebar
| LatePageChange (captured page : Z).

Definition dispatch (x : Action) (a : App.State) : App.State :=
  match x with
  | FileChange files => App.handleFileChange files a
  | Drop files => App.handleDrop files a
  | ClosePDF => App.handleClosePDF a
  | ExportFile o => fst (App.handleExportFile o a)
  | ToolChange tool => App.handleToolChange tool a
  | LoadSuccess d => App.handleLoadSuccess d a
  | LoadError e => App.handleLoadError e a
  | PageChange page => App.handlePageChange page a
  | PrevPageClick => App.handlePrevPage a
  | NextPageClick => App.handleNextPage a
  | ZoomInClick => App.handleZoomIn a
  | ZoomOutClick => App.handleZoomOut a
  | ToggleSidebar => App.handleToggleSidebar a
  | CloseSidebar => App.setSidebarOpen false a
  | LatePageChange captured page => handlePageChangeFrom captured page a
  end.

Definition isLate (x : Action) : bool :=
  match x with LatePageChange _ _ => true | _ => false end.

Definition dispatchAll (xs : list Action) (a : App.State) : App.State :=
  fold_left (fun s x => dispatch x s) xs a.

(** ** The [PDFToolbar] component *)
Module Toolbar.

Record Props := mkProps {
  currentPage : Z;
  totalPages : Z;
  scale : Q;
  currentTool : ToolType;
  loading : bool;
  fileName : option string
}.

(** [Math.round]: to the nearest integer, a half going up. *)
Definition Math_round (x : Q) : Z := Qfloor (x + (1 # 2)).

(** [const scalePercentage = Math.round(scale * 100)] *)
Definition scalePercentage (p : Props) : Z := Math_round (scale p * 100).

(** The [disabled] attributes of the buttons and of the page field. *)
Definition zoomOutDisabled (p : Props) : bool := Qle_bool (scale p) 0.5.
Definition zoomInDisabled (p : Props) : bool := Qle_bool 3 (scale p).
Definition prevDisabled (p : Props) : bool :=
  (currentPage p <=? 1) || loading p.
Definition nextDisabled (p : Props) : bool :=
  (totalPages p <=? currentPage p) || loading p.
Definition pageInputDisabled (p : Props) : bool := loading p.
(** [disabled={!fileName}]: [null] and the empty string are falsy. *)
Definition exportDisabled (p : Props) : bool :=
  match fileName p with
  | None => true
  | Some n => String.eqb n ""
  end.

(** The white space [parseInt] skips, among the ASCII characters: tab,
    line feed, vertical tab, form feed, carriage return, space.  The value
    of an [<input type="number">] holds none. *)
Definition isWhiteSpace (c : ascii) : bool :=
  let n := Z.of_nat (nat_of_ascii c) in
  ((9 <=? n) && (n <=? 13)) || (n =? 32).

Fixpoint trimStart (s : string) : string :=
  match s with
  | String c r => if isWhiteSpace c then trimStart r else s
  | EmptyString => s
  end.

Definition digitValue (c : ascii) : option Z :=
  let n := Z.of_nat (nat_of_ascii c) in
  if (48 <=? n) && (n <=? 57) then Some (n - 48) else None.

(** The value of the longest prefix of decimal digits, after [acc]. *)
Fixpoint digitsValue (acc : Z) (s : string) : Z :=
  match s with
  | String c r =>
      match digitValue c with
      | Some d => digitsValue (10 * acc + d) r
      | None => acc
      end
  | EmptyString => acc
  end.

Definition startsWithDigit (s : string) : bool :=
  match s with
  | String c _ => match digitValue c with Some _ => true | None => false end
  | EmptyString => false
  end.

(** [parseInt(value, 10)]: skip leading white space, read a sign, read the
    longest prefix of decimal digits; [NaN], here [None], if there is no
    digit.  The value is exact; the code's is the nearest double, the same
    number up to 2^53. *)
Definition parseInt (value : string) : option Z :=
  let t := trimStart value in
  let '(sign, body) :=
    match t with
    | String c r =>
        if Ascii.eqb c "-" then (-1, r)
        else if Ascii.eqb c "+" then (1, r)
        else (1, t)
    | EmptyString => (1, t)
    end in
  if startsWithDigit body then Some (sign * digitsValue 0 body) else None.

(** [Number.prototype.toString] on an integer: its decimal digits, after a
    minus sign if it is negative.  This is the code's text for integers
    below 10^21 in magnitude; from there on the code writes an exponent. *)
Definition toString (z : Z) : string := NilZero.string_of_int (Z.to_int z).

(** [handlePageInputChange]: the page passed to [onPageChange], if it is
    called. *)
Definition handlePageInputChange (value : string) (p : Props) : option Z :=
  match parseInt value with
  | Some page =>
      if (1 <=? page) && (page <=? totalPages p) then Some page else None
  | None => None
  end.

(** [handlePageInputBlur]: the text of the field after the handler. *)
Definition handlePageInputBlur (value : string) (p : Props) : string :=
  match parseInt value with
  | Some page =>
      if (page <? 1) || (totalPages p <? page)
      then toString (currentPage p) else value
  | None => toString (currentPage p)
  end.

End Toolbar.

(** The props [App] passes to [<PDFToolbar>];
    [fileName={currentFile?.name || null}]. *)
Definition toolbarProps (a : App.State) : Toolbar.Props :=
  {| Toolbar.currentPage := App.currentPage a;
     Toolbar.totalPages := App.totalPages a;
     Toolbar.scale := App.scale a;
     Toolbar.currentTool := App.currentTool a;
     Toolbar.loading := App.loading a;
     Toolbar.fileName :=
       match App.currentFile a with
       | Some f => if String.eqb (name f) "" then None else Some (name f)
       | None => None
       end |}.

(** A change event of the page field, with [onPageChange={handlePageChange}]. *)
Definition typePage (value : string) (a : App.State) : App.State :=
  match Toolbar.handlePageInputChange value (toolbarProps a) with
  | Some page => App.handlePageChange page a
  | None => a
  end.

(** ** The [PDFSidebar] component *)
Module Sidebar.

(** [Array.from({ length: totalPages }, (_, i) => i + 1)] *)
Definition pages (totalPages : Z) : list Z :=
  map (fun i => Z.of_nat i + 1) (seq 0 (Z.to_nat totalPages)).

(** [page === currentPage]: the entry shown as the current one. *)
Definition isCurrent (currentPage page : Z) : bool := page =? currentPage.

(** [handleEscape]: whether [onClose] is called. *)
Definition handleEscape (key : string) (open : bool) : bool :=
  String.eqb key "Escape" && open.

(** [if (!open && totalPages === 0) return null] *)
Definition rendersNothing (open : bool) (totalPages : Z) : bool :=
  negb open && (totalPages =? 0).

End Sidebar.

(** A click on the sidebar entry of [page], with
    [onPageSelect={handlePageChange}]: [onPageSelect?.(page); onClose()]. *)
Definition clickEntry (page : Z) (a : App.State) : App.State :=
  App.setSidebarOpen false (App.handlePageChange page a).

(** ** The [usePDFNavigation] hook *)
Module Navigation.

(** The hook's state cell is [currentPage]; [pdf] is its argument. *)
Definition goToPage (pdf : option PDFDocumentProxy) (page : Z) (currentPage : Z)
  : Z :=
  match pdf with
  | Some d => if (1 <=? page) && (page <=? numPages d) then page else currentPage
  | None => currentPage
  end.

Definition nextPage (pdf : option PDFDocumentProxy) (currentPage : Z) : Z :=
  match pdf with
  | Some d => if currentPage <? numPages d then currentPage + 1 else currentPage
  | None => currentPage
  end.

Definition prevPage (currentPage : Z) : Z :=
  if 1 <? currentPage then currentPage - 1 else currentPage.

(** [totalPages: pdf?.numPages || 0] *)
Definition totalPages (pdf : option PDFDocumentProxy) : Z :=
  match pdf with
  | Some d => numPages d
  | None => 0
  end.

Inductive Move := GoTo (page : Z) | Next | Prev.

Definition move (pdf : option PDFDocumentProxy) (m : Move) (currentPage : Z) : Z :=
  match m with
  | GoTo page => goToPage pdf page currentPage
  | Next => nextPage pdf currentPage
  | Prev => prevPage currentPage
  end.

End Navigation.

(** ** The viewer's remaining effects and handlers *)

(** The two effects mirroring a controlled prop into the viewer's state:
    [if (externalCurrentPage !== undefined && externalCurrentPage !== currentPage)
       setCurrentPage(externalCurrentPage)], and the same for the scale. *)
Definition syncCurrentPage (p : Viewer.Props) (v : Viewer.State) : Viewer.State :=
  match Viewer.externalCurrentPage p with
  | Some x => if negb (x =? Viewer.currentPage v) then Viewer.setCurrentPage x v else v
  | None => v
  end.

Definition syncScale (p : Viewer.Props) (v : Viewer.State) : Viewer.State :=
  match Viewer.externalScale p with
  | Some x => if negb (Qeq_bool x (Viewer.scale v)) then Viewer.setScale x v else v
  | None => v
  end.

Definition syncExternal (p : Viewer.Props) (v : Viewer.State) : Viewer.State :=
  syncScale p (syncCurrentPage p v).

(** The unmount cleanup:
    [if (renderTaskRef.current) renderTaskRef.current.cancel()]. *)
Definition unmountCleanup (v : Viewer.State) : list Viewer.Output :=
  match Viewer.renderTaskRef v with
  | Some t => [Viewer.CancelTask t]
  | None => []
  end.

(** A burst of wheel events, then the timer. *)
Definition wheelBurst (evs : list Viewer.WheelEvent) (v : Viewer.State)
  : Viewer.State :=
  fold_left (fun s ev => fst (Viewer.handleWheel ev s)) evs v.

Definition isRequest (ev : Viewer.Event) : bool :=
  match ev with Viewer.Request _ _ => true | _ => false end.

Definition cancels (o : list Viewer.Output) : list nat :=
  omap (fun x => match x with Viewer.CancelTask t => Some t | _ => None end) o.

(** What holds of the stored render task in every state: an invocation
    still waiting for [pdf.getPage] was never cancelled, and the stored task
    belongs to an invocation that got past [pdf.getPage] and was not
    cancelled. *)
Definition storedTaskSound (v : Viewer.State) : Prop :=
  (forall id c, Viewer.calls v !! id = Some c ->
     Viewer.stage c = Viewer.AwaitGetPage -> Viewer.cancelRequested c = false) /\
  (forall t, Viewer.renderTaskRef v = Some t ->
     exists c, Viewer.calls v !! t = Some c /\
               Viewer.cancelRequested c = false /\
               Viewer.stage c <> Viewer.AwaitGetPage).

(** [cancel()] was called on the task of invocation [t]. *)
Definition wasCancelled (t : nat) (v : Viewer.State) : Prop :=
  exists c, Viewer.calls v !! t = Some c /\ Viewer.cancelRequested c = true.

(** An invocation that has not returned and whose task was not cancelled. *)
Definition live (c : Viewer.RenderCall) : Prop :=
  Viewer.stage c <> Viewer.Settled /\ Viewer.cancelRequested c = false.

Definition hasReturned (c : Viewer.RenderCall) : bool :=
  match Viewer.stage c with Viewer.Settled => true | _ => false end.

(** How many invocations of [renderPage] have returned. *)
Definition settledCount (v : Viewer.State) : nat :=
  length (List.filter hasReturned (Viewer.calls v)).

(** *** Panning with the hand tool *)
Module Pan.

Inductive Target := OnCanvas | Elsewhere.

(** A mouse event as the pan handlers read it; [target] tells whether
    [e.target] is the canvas element. *)
Record MouseEvent := mkMouse { clientX : Z; clientY : Z; target : Target }.

(** [containerRef.current.scrollLeft -= deltaX; .scrollTop -= deltaY],
    written as the offset added to the scroll position. *)
Inductive Effect :=
| PreventDefault
| ScrollBy (dx dy : Z).

Definition setIsPanning (x : bool) (v : Viewer.State) : Viewer.State :=
  Viewer.mkState (Viewer.pdf v) (Viewer.currentPage v) (Viewer.loading v)
    (Viewer.scale v) x (Viewer.lastPanPoint v) (Viewer.renderTaskRef v)
    (Viewer.canvasRef v) (Viewer.wheelTimeout v) (Viewer.calls v).
Definition setLastPanPoint (x : Z * Z) (v : Viewer.State) : Viewer.State :=
  Viewer.mkState (Viewer.pdf v) (Viewer.currentPage v) (Viewer.loading v)
    (Viewer.scale v) (Viewer.isPanning v) x (Viewer.renderTaskRef v)
    (Viewer.canvasRef v) (Viewer.wheelTimeout v) (Viewer.calls v).

(** The listeners exist only while [currentTool === 'hand']. *)
Definition listening (p : Viewer.Props) : bool :=
  match Viewer.currentTool p with hand => true | cursor => false end.

(** [e.target === canvasRef.current] *)
Definition onCanvas (e : MouseEvent) (v : Viewer.State) : bool :=
  match target e with
  | OnCanvas => Viewer.canvasRef v
  | Elsewhere => false
  end.

Definition handleMouseDown (p : Viewer.Props) (e : MouseEvent) (v : Viewer.State)
  : Viewer.State * list Effect :=
  if listening p && onCanvas e v
  then (setLastPanPoint (clientX e, clientY e) (setIsPanning true v),
        [PreventDefault])
  else (v, []).

(** [handleMouseMove] run by listeners registered in the current render:
    [isPanning] and [lastPanPoint] are the state's.  [container] tells
    whether [containerRef.current] is not null.  [handleMouseMoveOn] below
    is the handler on listeners registered earlier. *)
Definition handleMouseMove (p : Viewer.Props) (container : bool)
    (e : MouseEvent) (v : Viewer.State) : Viewer.State * list Effect :=
  if listening p && Viewer.isPanning v && container
  then
    let deltaX := clientX e - fst (Viewer.lastPanPoint v) in
    let deltaY := clientY e - snd (Viewer.lastPanPoint v) in
    (setLastPanPoint (clientX e, clientY e) v, [ScrollBy (- deltaX) (- deltaY)])
  else (v, []).

Definition handleMouseUp (p : Viewer.Props) (v : Viewer.State) : Viewer.State :=
  if listening p then setIsPanning false v else v.

Inductive Mouse :=
| Down (e : MouseEvent)
| Move (e : MouseEvent)
| Up.

Definition mouse (p : Viewer.Props) (container : bool) (m : Mouse)
    (v : Viewer.State) : Viewer.State * list Effect :=
  match m with
  | Down e => handleMouseDown p e v
  | Move e => handleMouseMove p container e v
  | Up => (handleMouseUp p v, [])
  end.

Fixpoint mouseRun (p : Viewer.Props) (container : bool) (ms : list Mouse)
    (v : Viewer.State) : Viewer.State * list Effect :=
  match ms with
  | [] => (v, [])
  | m :: ms' =>
      let '(v1, o1) := mouse p container m v in
      let '(v2, o2) := mouseRun p container ms' v1 in
      (v2, o1 ++ o2)
  end.

(** What the registered listeners hold of the state: the pan effect (deps
    [currentTool, isPanning, lastPanPoint]) registers [handleMouseMove] with
    the [isPanning] and [lastPanPoint] of the render it ran in, and these
    stay until the effect runs again. *)
Record Closure := mkClosure { heldPanning : bool; heldPoint : Z * Z }.

Definition capture (v : Viewer.State) : Closure :=
  mkClosure (Viewer.isPanning v) (Viewer.lastPanPoint v).

(** [handleMouseMove] on the listeners holding [k]: the guard and the
    deltas read [k], [setLastPanPoint] writes the state. *)
Definition handleMouseMoveOn (k : Closure) (p : Viewer.Props) (container : bool)
    (e : MouseEvent) (v : Viewer.State) : Viewer.State * list Effect :=
  if listening p && heldPanning k && container
  then
    let deltaX := clientX e - fst (heldPoint k) in
    let deltaY := clientY e - snd (heldPoint k) in
    (setLastPanPoint (clientX e, clientY e) v, [ScrollBy (- deltaX) (- deltaY)])
  else (v, []).

(** A gesture as the page sees it: mouse events, and between them the
    moments at which React has re-rendered and run the pan effect again. *)
Inductive Gesture :=
| GDown (e : MouseEvent)
| GMove (e : MouseEvent)
| GUp
| GEffect.

Fixpoint gestureRun (p : Viewer.Props) (container : bool) (gs : list Gesture)
    (v : Viewer.State) (k : Closure) : Viewer.State * Closure * list Effect :=
  match gs with
  | [] => (v, k, [])
  | g :: gs' =>
      let '(v1, k1, o1) :=
        match g with
        | GDown e => let r := handleMouseDown p e v in (fst r, k, snd r)
        | GMove e => let r := handleMouseMoveOn k p container e v in (fst r, k, snd r)
        | GUp => (handleMouseUp p v, k, [])
        | GEffect => (v, capture v, [])
        end in
      let '(v2, k2, o2) := gestureRun p container gs' v1 k1 in
      (v2, k2, o1 ++ o2)
  end.

(** Moves each followed by a run of the effect. *)
Definition refreshed (es : list MouseEvent) : list Gesture :=
  flat_map (fun e => [GMove e; GEffect]) es.

(** The sum of the scroll offsets among the effects. *)
Fixpoint scrolled (o : list Effect) : Z * Z :=
  match o with
  | [] => (0, 0)
  | ScrollBy dx dy :: o' => (dx + fst (scrolled o'), dy + snd (scrolled o'))
  | PreventDefault :: o' => scrolled o'
  end.

End Pan.

(** *** The earlier [PDFViewer] (lines 517 to 807 of the same file) *)
Module Earlier.

(** Its [handleKeyDown]: no look at the event's target, the four arrows
    paired, and the viewer's own page set in every mode. *)
Definition handleKeyDown (p : Viewer.Props) (ev : Viewer.KeyboardEvent)
    (v : Viewer.State) : Viewer.State * list Viewer.Output :=
  match Viewer.pdf v with
  | None => (v, [])
  | Some doc =>
      let k := Viewer.key ev in
      if String.eqb k "ArrowUp" || String.eqb k "ArrowLeft" then
        (if 1 <? Viewer.activePage p v
         then Viewer.setCurrentPage (Viewer.activePage p v - 1) v else v,
         [Viewer.PreventDefault])
      else if String.eqb k "ArrowDown" || String.eqb k "ArrowRight" then
        (if Viewer.activePage p v <? numPages doc
         then Viewer.setCurrentPage (Viewer.activePage p v + 1) v else v,
         [Viewer.PreventDefault])
      else if String.eqb k "+" || String.eqb k "=" then
        (Viewer.setScale (zoomIn (Viewer.scale v)) v, [Viewer.PreventDefault])
      else if String.eqb k "-" then
        (Viewer.setScale (zoomOut (Viewer.scale v)) v, [Viewer.PreventDefault])
      else (v, [])
  end.

End Earlier.

(** ** [App] and the viewer mounted, with the callbacks' closures *)

(** [closures] gives, for each invocation of [renderPage], the [totalPages]
    of the render in which its effect ran: the [onPageChange] it calls is
    the [handlePageChange] of that render.  [log] keeps the viewer's
    outputs. *)
Record Mounted := mkMounted {
  app : App.State;
  viewer : Viewer.State;
  closures : list Z;
  log : list Viewer.Output
}.

(** The wiring of [deliver], with [onPageChange] bound to the
    [handlePageChange] of a given render; [handleLoadSuccess] and
    [handleLoadError] have no deps and are the same in every render. *)
Definition deliverFrom (captured : Z) (a : App.State) (o : Viewer.Output)
  : App.State :=
  match o with
  | Viewer.OnPageChange n => handlePageChangeFrom captured n a
  | _ => deliver a o
  end.

Inductive Happening :=
| Does (i : Intent)                     (** a page intent of the user *)
| Picks (f : File)                      (** the file dialog returns [f] *)
| LoadSettles (r : Viewer.LoadResult)   (** [loadPDF]'s promise settles *)
| Closes                                (** [handleClosePDF], then the file effect *)
| RenderEffectRuns                      (** the render effect, on the current props *)
| CanvasMounts (b : bool)               (** React sets [canvasRef.current] *)
| GetPageSettles (id : nat) (r : option Thrown)
| RasterSettles (id : nat) (r : option Thrown).

(** The viewer's event for a settling promise; [None] is a resolution. *)
Definition settles (h : Happening) : option Viewer.Event :=
  match h with
  | GetPageSettles id None => Some (Viewer.GetPageResolved id)
  | GetPageSettles id (Some e) => Some (Viewer.GetPageRejected id e)
  | RasterSettles id None => Some (Viewer.RasterResolved id)
  | RasterSettles id (Some e) => Some (Viewer.RasterRejected id e)
  | _ => None
  end.

Definition happen (h : Happening) (m : Mounted) : Mounted :=
  match h with
  | Does i =>
      let s := applyIntent i (app m, viewer m) in
      mkMounted (fst s) (snd s) (closures m) (log m)
  | Picks f =>
      let s := pickFile f (app m, viewer m) in
      mkMounted (fst s) (snd s) (closures m) (log m)
  | LoadSettles r =>
      let s := loadSettled r (app m, viewer m) in
      mkMounted (fst s) (snd s) (closures m)
        (log m ++ snd (Viewer.loadPDFSettled r (viewer m)))
  | Closes =>
      let a' := App.handleClosePDF (app m) in
      mkMounted a' (Viewer.fileEffect (propsOf a') (viewer m)) (closures m) (log m)
  | RenderEffectRuns =>
      let r := Viewer.renderEffect (propsOf (app m)) (viewer m) in
      mkMounted (app m) (fst r)
        (if Nat.ltb (length (Viewer.calls (viewer m))) (length (Viewer.calls (fst r)))
         then closures m ++ [App.totalPages (app m)] else closures m)
        (log m ++ snd r)
  | CanvasMounts b =>
      mkMounted (app m) (Viewer.setCanvasRef b (viewer m)) (closures m) (log m)
  | GetPageSettles id _ | RasterSettles id _ =>
      match settles h with
      | Some ev =>
          let r := Viewer.step ev (viewer m) in
          let captured := default (App.totalPages (app m)) (closures m !! id) in
          mkMounted (fold_left (deliverFrom captured) (snd r) (app m)) (fst r)
            (closures m) (log m ++ snd r)
      | None => m
      end
  end.

Definition happenAll (hs : list Happening) (m : Mounted) : Mounted :=
  fold_left (fun s h => happen h s) hs m.

(** A two-page document. *)
Definition doc2 : PDFDocumentProxy := mkDoc 1 2.

(** [loaded], mounted: no render requested yet. *)
Definition mounted5 : Mounted := mkMounted (fst loaded) (snd loaded) [] [].

(** Page 1 of the five-page document is rendered.  The user picks a second
    file and, while it loads, jumps to page 5; the render of page 5 is
    waiting for [pdf.getPage] when the two-page document arrives and its
    page 1 is requested.  Both rasters then run; page 1 resolves first and
    page 5 last. *)
Definition overtakenLoad : list Happening :=
  [CanvasMounts true; RenderEffectRuns;
   GetPageSettles 0 None; RasterSettles 0 None;
   Picks fileB; Does (PageJump 5); RenderEffectRuns;
   LoadSettles (Viewer.LoadResolved doc2); RenderEffectRuns;
   GetPageSettles 1 None; GetPageSettles 2 None;
   RasterSettles 2 None; RasterSettles 1 None].

(** The parts of the viewer's state that the render pipeline owns. *)
Definition pipelineOf (v : Viewer.State)
  : option PDFDocumentProxy * bool * option nat * bool * list Viewer.RenderCall :=
  (Viewer.pdf v, Viewer.loading v, Viewer.renderTaskRef v, Viewer.canvasRef v,
   Viewer.calls v).

(** * Properties *)

(** ** Scale policy *)

Section ScaleFacts.

Local Open Scope Q_scope.

Lemma Math_min_bounds (x lo hi : Q) :
  lo <= x -> lo <= hi -> lo <= Math_min x hi /\ Math_min x hi <= hi.
Proof.
  intros Hx Hlh. unfold Math_min. split.
  - apply Q.min_glb; assumption.
  - apply Q.le_min_r.
Qed.

Lemma Math_max_bounds (x lo hi : Q) :
  x <= hi -> lo <= hi -> lo <= Math_max x lo /\ Math_max x lo <= hi.
Proof.
  intros Hx Hlh. unfold Math_max. split.
  - apply Q.le_max_r.
  - apply Q.max_lub; assumption.
Qed.

Lemma zoomIn_bounded (sc : Q) : inScaleBounds sc -> inScaleBounds (zoomIn sc).
Proof.
  intros [Hlo Hhi]. unfold zoomIn.
  apply Math_min_bounds; lra.
Qed.

Lemma zoomOut_bounded (sc : Q) : inScaleBounds sc -> inScaleBounds (zoomOut sc).
Proof.
  intros [Hlo Hhi]. unfold zoomOut.
  apply Math_max_bounds; [| lra].
  apply Qle_shift_div_r; lra.
Qed.

(** Whatever goes in, the wheel updater's result is within the bounds. *)
Lemma wheelZoom_bounded (dy sc : Q) : inScaleBounds (Viewer.wheelZoom dy sc).
Proof.
  unfold Viewer.wheelZoom, inScaleBounds, Math_max, Math_min. split.
  - apply Q.le_max_l.
  - apply Q.max_lub; [lra | apply Q.le_min_l].
Qed.

Lemma gt0_spec (x : Q) : gt0 x = true <-> 0 < x.
Proof.
  unfold gt0. rewrite negb_true_iff.
  destruct (Qle_bool x 0) eqn:E.
  - apply Qle_bool_iff in E. split; [discriminate | lra].
  - split; [intros _ | reflexivity].
    destruct (Qlt_le_dec 0 x) as [H | H]; [exact H |].
    apply Qle_bool_iff in H. congruence.
Qed.

End ScaleFacts.

Lemma goTo_scale (p : Viewer.Props) (n : Z) (v : Viewer.State) :
  Viewer.scale (fst (Viewer.goTo p n v)) = Viewer.scale v.
Proof. unfold Viewer.goTo. destruct (Viewer.externalCurrentPage p); reflexivity. Qed.

(** A key never takes the viewer's own scale out of the bounds. *)
Lemma handleKeyDown_scale_bounded (p : Viewer.Props) (ev : Viewer.KeyboardEvent)
    (v : Viewer.State) :
  inScaleBounds (Viewer.scale v) ->
  inScaleBounds (Viewer.scale (fst (Viewer.handleKeyDown p ev v))).
Proof.
  intros Hb. unfold Viewer.handleKeyDown.
  destruct (Viewer.pdf v) as [doc |]; [| exact Hb].
  destruct (Viewer.target ev); try exact Hb.
  repeat match goal with
  | |- context [if ?b then _ else _] => destruct b
  | |- context [let '(_, _) := Viewer.goTo ?p ?n ?v in _] =>
      pose proof (goTo_scale p n v);
      destruct (Viewer.goTo p n v) as [v' o]; simpl in *
  end; simpl; try congruence.
  - apply zoomIn_bounded, Hb.
  - apply zoomOut_bounded, Hb.
Qed.

(** C5, as the claim words it, fails: for a positive [deltaY] the code
    multiplies by 0.9, so scale 1 becomes 0.9, not 1/1.1 = 10/11. *)
Lemma wheel_zoom_out_is_not_reciprocal :
  (Viewer.wheelZoom 1 1 == 0.9)%Q /\
  (spec_zoomByWheel 1 1 == 10 # 11)%Q /\
  ~ (Viewer.wheelZoom 1 1 == spec_zoomByWheel 1 1)%Q.
Proof.
  split; [reflexivity |]. split; [reflexivity |].
  intros H. vm_compute in H. discriminate H.
Qed.

(** C5 (amended): a ctrl-wheel event whose timer fires multiplies the
    scale by 0.9 when [deltaY > 0] and by 1.1 when [deltaY <= 0], and the
    product is clamped to [0.5, 3.0]. *)
Theorem wheel_zoom_factors (v : Viewer.State) (dy : Q) :
  let r := Viewer.scale
             (Viewer.wheelTimeoutFired
                (fst (Viewer.handleWheel (Viewer.mkWheel true dy) v))) in
  inScaleBounds r /\
  ((0 < dy /\ r == Qmax 0.5 (Qmin 3 (Viewer.scale v * 0.9))) \/
   (dy <= 0 /\ r == Qmax 0.5 (Qmin 3 (Viewer.scale v * 1.1))))%Q.
Proof.
  cbn. split; [apply wheelZoom_bounded |].
  unfold Viewer.wheelZoom, Math_max, Math_min.
  destruct (gt0 dy) eqn:E.
  - left. split; [apply gt0_spec, E | reflexivity].
  - right. split; [| reflexivity].
    destruct (Qlt_le_dec 0 dy) as [H | H]; [| exact H].
    apply gt0_spec in H. congruence.
Qed.

(** C6, as the claim words it, fails: zoom-in bounds its result only from
    above and zoom-out only from below.  The viewer takes any number as its
    [scale] prop: given 0.25 it mirrors it into its own scale, and the [+]
    key then leaves 0.25 * 1.2, below 0.5; given 6, the [-] key leaves
    6 / 1.2, above 3. *)
Lemma zoom_one_sided_clamp :
  (zoomIn 0.25 == 0.25 * 1.2)%Q /\ (zoomIn 0.25 < 0.5)%Q /\
  (zoomOut 6 == 6 / 1.2)%Q /\ (3 < zoomOut 6)%Q /\
  let small := Viewer.mkProps (Some fileA) (Some 0.25%Q) None cursor in
  let large := Viewer.mkProps (Some fileA) (Some 6%Q) None cursor in
  ~ inScaleBounds
      (Viewer.scale
         (fst (Viewer.handleKeyDown small
                 (Viewer.mkKey "+" Viewer.OtherTarget None)
                 (syncExternal small ready)))) /\
  ~ inScaleBounds
      (Viewer.scale
         (fst (Viewer.handleKeyDown large
                 (Viewer.mkKey "-" Viewer.OtherTarget None)
                 (syncExternal large ready)))).
Proof.
  split; [reflexivity |]. split; [reflexivity |].
  split; [reflexivity |]. split; [reflexivity |].
  cbv zeta. split.
  - intros [H _]. vm_compute in H. apply H. reflexivity.
  - intros [_ H]. vm_compute in H. apply H. reflexivity.
Qed.

(** C6 (amended): for every input scale, zoom-in returns at most 3.0 and
    zoom-out returns at least 0.5; zoom-in returns at least 0.5 whenever the
    input is at least 0.5, and zoom-out returns at most 3.0 whenever the
    input is at most 3.0.  This holds of the toolbar buttons and of the
    [+], [=] and [-] keys, which keep a scale within [0.5, 3.0] within it.
    Zoom-in of 2.8 is 3.0 and zoom-out of 0.55 is 0.5. *)
Theorem zoom_stays_in_bounds (a : App.State) (p : Viewer.Props)
    (ev : Viewer.KeyboardEvent) (v : Viewer.State) :
  (App.scale (App.handleZoomIn a) <= 3)%Q /\
  (0.5 <= App.scale (App.handleZoomOut a))%Q /\
  (0.5 <= App.scale a -> 0.5 <= App.scale (App.handleZoomIn a))%Q /\
  (App.scale a <= 3 -> App.scale (App.handleZoomOut a) <= 3)%Q /\
  (forall doc c, Viewer.pdf v = Some doc ->
     (Viewer.scale (fst (Viewer.handleKeyDown p
                           (Viewer.mkKey "+" Viewer.OtherTarget c) v)) <= 3)%Q /\
     (Viewer.scale (fst (Viewer.handleKeyDown p
                           (Viewer.mkKey "=" Viewer.OtherTarget c) v)) <= 3)%Q /\
     (0.5 <= Viewer.scale (fst (Viewer.handleKeyDown p
                           (Viewer.mkKey "-" Viewer.OtherTarget c) v)))%Q) /\
  (inScaleBounds (Viewer.scale v) ->
   inScaleBounds (Viewer.scale (fst (Viewer.handleKeyDown p ev v)))) /\
  (zoomIn 2.8 == 3)%Q /\ (zoomOut 0.55 == 0.5)%Q.
Proof.
  split; [apply Q.le_min_r |]. split; [apply Q.le_max_r |].
  split; [| split; [| split; [| split; [| split; reflexivity]]]].
  - intros H. simpl. unfold zoomIn, Math_min. apply Q.min_glb; lra.
  - intros H. simpl. unfold zoomOut, Math_max. apply Q.max_lub; [| lra].
    apply Qle_shift_div_r; lra.
  - intros doc c Hd. unfold Viewer.handleKeyDown. rewrite Hd. simpl.
    split; [apply Q.le_min_r | split; [apply Q.le_min_r | apply Q.le_max_r]].
  - apply handleKeyDown_scale_bounded.
Qed.

Lemma zoom_stays_in_bounds_witness :
  inScaleBounds (Viewer.scale
    (fst (Viewer.handleKeyDown (propsOf (fst loaded))
            (Viewer.mkKey "+" Viewer.OtherTarget None) (snd loaded)))) /\
  inScaleBounds (App.scale (App.handleZoomIn (fst loaded))).
Proof.
  assert (Ha : (0.5 <= App.scale (fst loaded))%Q)
    by (intros H; vm_compute in H; discriminate H).
  assert (Hv : inScaleBounds (Viewer.scale (snd loaded)))
    by (split; intros H; vm_compute in H; discriminate H).
  pose proof (zoom_stays_in_bounds (fst loaded) (propsOf (fst loaded))
    (Viewer.mkKey "+" Viewer.OtherTarget None) (snd loaded))
    as (H1 & _ & H3 & _ & _ & H6 & _).
  split; [apply H6, Hv | split; [apply H3, Ha | exact H1]].
Defined.

(** ** Page navigation *)

Lemma handlePageChange_spec (page : Z) (a : App.State) :
  (1 <= page <= App.totalPages a /\
   App.handlePageChange page a = App.setCurrentPage page a) \/
  (~ 1 <= page <= App.totalPages a /\ App.handlePageChange page a = a).
Proof.
  unfold App.handlePageChange.
  destruct (1 <=? page) eqn:E1; destruct (page <=? App.totalPages a) eqn:E2;
    simpl; [left | right | right | right]; split; try reflexivity; lia.
Qed.

Lemma handlePageChange_range (page : Z) (a : App.State) :
  pageInRange a ->
  pageInRange (App.handlePageChange page a) /\
  App.totalPages (App.handlePageChange page a) = App.totalPages a.
Proof.
  intros Hr. destruct (handlePageChange_spec page a) as [[Hp ->] | [_ ->]].
  - unfold pageInRange. simpl. lia.
  - auto.
Qed.

(** In controlled mode [goTo] changes no viewer state and asks [App]. *)
Lemma goTo_controlled (a : App.State) (n : Z) (v : Viewer.State) :
  Viewer.goTo (propsOf a) n v = (v, [Viewer.OnPageChange n]).
Proof. reflexivity. Qed.

(** What a key can make the viewer ask of [App]: nothing, or one page. *)
Lemma handleKeyDown_controlled (a : App.State) (ev : Viewer.KeyboardEvent)
    (v : Viewer.State) :
  let o := snd (Viewer.handleKeyDown (propsOf a) ev v) in
  deliverAll o a = a \/ exists n, deliverAll o a = App.handlePageChange n a.
Proof.
  unfold Viewer.handleKeyDown.
  destruct (Viewer.pdf v) as [doc |]; [| left; reflexivity].
  destruct (Viewer.target ev); try (left; reflexivity).
  rewrite !goTo_controlled.
  repeat match goal with
  | |- context [if ?b then _ else _] => destruct b
  end; simpl; eauto.
Qed.

(** Without an external page the viewer moves its own page, and keeps it
    within the pages of its document. *)
Lemma handleKeyDown_uncontrolled_range (p : Viewer.Props)
    (ev : Viewer.KeyboardEvent) (doc : PDFDocumentProxy) (v : Viewer.State) :
  Viewer.externalCurrentPage p = None ->
  Viewer.pdf v = Some doc ->
  1 <= Viewer.currentPage v <= numPages doc ->
  1 <= Viewer.currentPage (fst (Viewer.handleKeyDown p ev v)) <= numPages doc.
Proof.
  intros Hx Hd Hr. unfold Viewer.handleKeyDown, Viewer.goTo, Viewer.activePage.
  rewrite Hd, Hx.
  destruct (Viewer.target ev); try exact Hr.
  repeat match goal with
  | |- context [if ?b then _ else _] => destruct b eqn:?
  end; simpl; try exact Hr;
  repeat match goal with
  | H : (_ && _) = true |- _ => apply andb_true_iff in H as [? ?]
  end; lia.
Qed.

(** Page intents that reach [App] through the handlers of the current
    render: with the current page within [1, totalPages], a jump, previous,
    next or a key leaves it within [1, totalPages]; a jump outside the
    range, previous on page 1 and next on the last page change nothing. *)
Theorem page_intents_stay_in_range (i : Intent) (a : App.State)
    (v : Viewer.State) :
  pageInRange a ->
  pageInRange (fst (applyIntent i (a, v))) /\
  App.totalPages (fst (applyIntent i (a, v))) = App.totalPages a /\
  (forall page, ~ 1 <= page <= App.totalPages a ->
     applyIntent (PageJump page) (a, v) = (a, v)) /\
  (App.currentPage a = 1 -> applyIntent PrevPage (a, v) = (a, v)) /\
  (App.currentPage a = App.totalPages a -> applyIntent NextPage (a, v) = (a, v)).
Proof.
  intros Hr. split; [| split; [| split; [| split]]].
  - destruct i as [page | | | ev]; simpl.
    + apply handlePageChange_range, Hr.
    + unfold App.handlePrevPage. destruct (1 <? App.currentPage a) eqn:E;
        [| exact Hr]. unfold pageInRange in *. simpl. lia.
    + unfold App.handleNextPage.
      destruct (App.currentPage a <? App.totalPages a) eqn:E; [| exact Hr].
      unfold pageInRange in *. simpl. lia.
    + destruct (handleKeyDown_controlled a ev v) as [-> | [n ->]];
        [exact Hr | apply handlePageChange_range, Hr].
  - destruct i as [page | | | ev]; simpl.
    + apply handlePageChange_range, Hr.
    + unfold App.handlePrevPage. destruct (1 <? App.currentPage a); reflexivity.
    + unfold App.handleNextPage.
      destruct (App.currentPage a <? App.totalPages a); reflexivity.
    + destruct (handleKeyDown_controlled a ev v) as [-> | [n ->]];
        [reflexivity | apply handlePageChange_range, Hr].
  - intros page Hout. simpl.
    destruct (handlePageChange_spec page a) as [[Hin _] | [_ ->]];
      [contradiction | reflexivity].
  - intros H1. simpl. unfold App.handlePrevPage. rewrite H1. reflexivity.
  - intros Hn. simpl. unfold App.handleNextPage. rewrite Hn, Z.ltb_irrefl.
    reflexivity.
Qed.

Lemma page_intents_stay_in_range_witness :
  pageInRange
    (fst (applyIntent
            (Key (Viewer.mkKey "ArrowRight" Viewer.OtherTarget None)) loaded)) /\
  applyIntent (PageJump 6) loaded = loaded.
Proof.
  assert (Hr : pageInRange (fst loaded)) by (vm_compute; split; discriminate).
  pose proof (page_intents_stay_in_range
    (Key (Viewer.mkKey "ArrowRight" Viewer.OtherTarget None))
    (fst loaded) (snd loaded) Hr) as (H1 & _ & H3 & _).
  split.
  - exact H1.
  - apply (H3 6). vm_compute. intros [_ H]. apply H. reflexivity.
Defined.

(** C7: the code breaks the claim.  [renderPage] calls the [onPageChange] it
    captured when its effect ran, which is the [handlePageChange] of that
    render and tests the page against the [totalPages] of that render.  In
    [overtakenLoad] the render of page 5 of the five-page document commits
    after the two-page document has been loaded: no task was cancelled, the
    state was in range before the callback, and the callback sets the
    current page to 5 while the loaded document has 2 pages. *)
Theorem late_commit_sets_page_out_of_range :
  let before := happenAll (removelast overtakenLoad) mounted5 in
  let m := happenAll overtakenLoad mounted5 in
  pageInRange (app before) /\
  App.pdf (app m) = Some doc2 /\ Viewer.pdf (viewer m) = Some doc2 /\
  App.totalPages (app m) = 2 /\
  App.currentPage (app m) = 5 /\
  ~ pageInRange (app m) /\
  closures m = [5; 5; 2] /\
  cancels (log m) = [] /\
  Viewer.pageCommits (log m) = [1; 1; 5].
Proof.
  cbv zeta. vm_compute.
  repeat split; try discriminate.
  intros [_ H]. apply H. reflexivity.
Qed.

(** C8: with no document loaded, an arrow-right key leaves the viewer's
    state (page, scale, loading and the rest) as it was, calls nothing, and
    so leaves [App]'s state (its error among it) as it was. *)
Theorem arrow_right_without_document (a : App.State) (p : Viewer.Props)
    (ev : Viewer.KeyboardEvent) (v : Viewer.State) :
  Viewer.pdf v = None ->
  Viewer.key ev = "ArrowRight"%string ->
  Viewer.handleKeyDown p ev v = (v, []) /\
  applyIntent (Key ev) (a, v) = (a, v).
Proof.
  intros Hpdf _. unfold applyIntent, inApp, Viewer.handleKeyDown. simpl.
  rewrite Hpdf. split; reflexivity.
Qed.

Lemma arrow_right_without_document_witness :
  applyIntent (Key (Viewer.mkKey "ArrowRight" Viewer.OtherTarget None))
    (App.init, Viewer.init) = (App.init, Viewer.init).
Proof.
  apply (arrow_right_without_document App.init (propsOf App.init)
           (Viewer.mkKey "ArrowRight" Viewer.OtherTarget None) Viewer.init);
    reflexivity.
Defined.

(** ** Files: picking, dropping, loading, exporting *)

Lemma isPDFFile_spec (f : File) :
  isPDFFile f = true <-> type f = "application/pdf"%string.
Proof. unfold isPDFFile. apply bool_decide_eq_true. Qed.

(** C9: the first file of a file-dialog or drop event becomes the current
    file exactly when its MIME type is the string [application/pdf], and
    then the error is cleared; otherwise the error message is set and the
    current file stays.  In both cases the document handle, the pages, the
    scale and every other cell are as before.  Neither the name nor the
    bytes of the file are looked at. *)
Theorem file_accepted_iff_pdf_mime (f : File) (rest : list File)
    (a : App.State) :
  (type f = "application/pdf"%string /\
   App.handleFileChange (f :: rest) a
     = App.mkState (Some f) (App.pdf a) (App.currentPage a) (App.totalPages a)
         (App.scale a) (App.loading a) None (App.sidebarOpen a)
         (App.currentTool a) /\
   App.handleDrop (f :: rest) a
     = App.mkState (Some f) (App.pdf a) (App.currentPage a) (App.totalPages a)
         (App.scale a) (App.loading a) None (App.sidebarOpen a)
         (App.currentTool a))
  \/
  (type f <> "application/pdf"%string /\
   App.handleFileChange (f :: rest) a
     = App.mkState (App.currentFile a) (App.pdf a) (App.currentPage a)
         (App.totalPages a) (App.scale a) (App.loading a)
         (Some "Please select a valid PDF file"%string) (App.sidebarOpen a)
         (App.currentTool a) /\
   App.handleDrop (f :: rest) a
     = App.mkState (App.currentFile a) (App.pdf a) (App.currentPage a)
         (App.totalPages a) (App.scale a) (App.loading a)
         (Some "Please drop a valid PDF file"%string) (App.sidebarOpen a)
         (App.currentTool a)).
Proof.
  unfold App.handleFileChange, App.handleDrop. simpl.
  destruct (isPDFFile f) eqn:E; simpl.
  - left. split; [apply isPDFFile_spec, E | split; reflexivity].
  - right. split; [| split; reflexivity].
    intros H. apply isPDFFile_spec in H. congruence.
Qed.

Lemma file_accepted_iff_pdf_mime_witness :
  App.currentFile (App.handleFileChange [fileB; notes] (fst loaded)) = Some fileB /\
  App.error (App.handleFileChange [fileB; notes] (fst loaded)) = None /\
  App.currentFile (App.handleDrop [notes; fileB] (fst loaded)) = Some fileA /\
  App.error (App.handleDrop [notes; fileB] (fst loaded))
    = Some "Please drop a valid PDF file"%string /\
  App.pdf (App.handleDrop [notes; fileB] (fst loaded)) = Some doc5.
Proof.
  destruct (file_accepted_iff_pdf_mime fileB [notes] (fst loaded))
    as [(_ & H1 & _) | (Hn & _)]; [| exfalso; apply Hn; reflexivity].
  destruct (file_accepted_iff_pdf_mime notes [fileB] (fst loaded))
    as [(Ht & _) | (_ & _ & H2)]; [discriminate Ht |].
  rewrite H1, H2. repeat split.
Defined.

(** A text file named like a PDF is refused, and the loaded document stays;
    a file with the PDF MIME type replaces the current file. *)
Example pdf_named_text_file_is_refused :
  App.handleDrop [notes] (fst loaded)
    = App.setError (Some "Please drop a valid PDF file"%string) (fst loaded) /\
  App.currentFile (App.handleFileChange [notes] (fst loaded)) = Some fileA /\
  App.currentFile (App.handleFileChange [fileB; notes] (fst loaded)) = Some fileB.
Proof. repeat split. Qed.

(** C10, as the claim words it, fails: [handleClosePDF] leaves the loading
    flag alone as well, so the tool is not the only cell it leaves
    unchanged. *)
Lemma close_leaves_loading_too :
  ~ (forall f, untouchedByClose f -> f = FCurrentTool).
Proof.
  intros H. specialize (H FLoading).
  assert (Hl : untouchedByClose FLoading) by (intros s; reflexivity).
  specialize (H Hl). discriminate H.
Qed.

(** C10 (amended): a successful export of the current file downloads it
    and closes the document: current file and document handle are null, the
    current page 1, the page count 0, the scale 1.2, the error cleared, the
    sidebar closed; the selected tool and the loading flag are the cells
    that close leaves unchanged, and the only ones. *)
Theorem export_closes_document (file : File) (s : App.State) :
  App.currentFile s = Some file ->
  App.handleExportFile ExportDone s
    = (App.mkState None None 1 0 1.2%Q (App.loading s) None false
         (App.currentTool s),
       [DownloadBlob (name file) (bytes file)]) /\
  (forall f, untouchedByClose f <-> f = FCurrentTool \/ f = FLoading).
Proof.
  intros Hf. split.
  - unfold App.handleExportFile. rewrite Hf. reflexivity.
  - intros f. split.
    + intros Hu.
      pose (s1 := App.mkState (Some fileA) (Some doc5) 2 5 2%Q false
                    (Some "e"%string) true hand).
      specialize (Hu s1). destruct f; simpl in Hu; auto; discriminate Hu.
    + intros [-> | ->] s0; reflexivity.
Qed.

Lemma export_closes_document_witness :
  fst (App.handleExportFile ExportDone (fst loaded))
    = App.mkState None None 1 0 1.2%Q false None false cursor.
Proof.
  pose proof (export_closes_document fileA (fst loaded) eq_refl) as [H _].
  rewrite H. reflexivity.
Defined.

(** C4, as the claim words it, fails: when a second file is rejected by the
    backend, the first document stays loaded in [App] and in the viewer. *)
Lemma load_error_keeps_previous_document :
  let s := loadSettled
             (Viewer.LoadRejected
                (ErrorObj "InvalidPDFException" "Invalid PDF structure."))
             (pickFile fileB loaded) in
  App.error (fst s) = Some "Invalid PDF structure."%string /\
  App.currentFile (fst s) = Some fileB /\
  App.pdf (fst s) = Some doc5 /\
  App.totalPages (fst s) = 5 /\
  Viewer.pdf (snd s) = Some doc5.
Proof. vm_compute. repeat split. Qed.

(** C4 (amended): when loading is rejected with an error, the error's
    message becomes [App]'s error (the message the user sees) and the
    loading flags are cleared; the document state is left as it was:
    document handle, page count and current page, in [App] and in the
    viewer, are unchanged. *)
Theorem load_error_surfaces_message (ename msg : string) (s : System) :
  let s' := loadSettled (Viewer.LoadRejected (ErrorObj ename msg)) s in
  App.error (fst s') = Some msg /\
  App.loading (fst s') = false /\
  Viewer.loading (snd s') = false /\
  App.pdf (fst s') = App.pdf (fst s) /\
  App.totalPages (fst s') = App.totalPages (fst s) /\
  App.currentPage (fst s') = App.currentPage (fst s) /\
  App.currentFile (fst s') = App.currentFile (fst s) /\
  Viewer.pdf (snd s') = Viewer.pdf (snd s) /\
  Viewer.currentPage (snd s') = Viewer.currentPage (snd s).
Proof. destruct s as [a v]. cbn. repeat split. Qed.

(** ** The render pipeline *)

Section RenderPipeline.

Import Viewer.

Lemma catchRender_not_visible (e : Thrown) : existsb visible (catchRender e) = false.
Proof.
  destruct e as [n m |]; simpl; [| reflexivity].
  destruct (negb (String.eqb n "RenderingCancelledException")); reflexivity.
Qed.

Lemma isLatest_unique (i j : nat) (v : State) :
  isLatest i v = true -> isLatest j v = true -> i = j.
Proof.
  unfold isLatest. intros Hi Hj.
  apply Nat.eqb_eq in Hi. apply Nat.eqb_eq in Hj. lia.
Qed.

(** A permitted step with a visible output resumes the latest request. *)
Lemma permitted_step_by_latest (ev : Event) (id : nat) (v : State) :
  pipelineOwnedByLatest v ->
  permitted ev v = true ->
  resumed ev = Some id ->
  existsb visible (snd (step ev v)) = true ->
  isLatest id v = true.
Proof.
  intros Hinv Hper Hres Hvis.
  destruct ev as [n sc | i | i e | i | i e | b]; simpl in *;
    try discriminate Hres; injection Hres as ->.
  - unfold getPageResolved in Hvis.
    destruct (calls v !! id) as [c |] eqn:Hc; [| discriminate Hvis].
    specialize (Hinv id c Hc).
    destruct (stage c); try discriminate Hvis. exact Hinv.
  - unfold getPageRejected in Hvis.
    destruct (calls v !! id) as [c |] eqn:Hc; [| discriminate Hvis].
    destruct (stage c); try discriminate Hvis.
    simpl in Hvis. rewrite catchRender_not_visible in Hvis. discriminate Hvis.
  - unfold rasterResolved in Hvis.
    destruct (calls v !! id) as [c |] eqn:Hc; [| discriminate Hvis].
    specialize (Hinv id c Hc).
    destruct (stage c); try discriminate Hvis.
    apply negb_true_iff in Hper. apply Hinv, Hper.
  - unfold rasterRejected in Hvis.
    destruct (calls v !! id) as [c |] eqn:Hc; [| discriminate Hvis].
    destruct (stage c); try discriminate Hvis.
    simpl in Hvis. rewrite catchRender_not_visible in Hvis. discriminate Hvis.
Qed.

Lemma isLatest_same_length (id : nat) (v v' : State) :
  length (calls v') = length (calls v) -> isLatest id v' = isLatest id v.
Proof. unfold isLatest. intros ->. reflexivity. Qed.

(** Settling one invocation keeps the invariant, as long as the stored
    task is kept or no other uncancelled raster is outstanding. *)
Lemma owned_after_settle (id : nat) (v v' : State) :
  pipelineOwnedByLatest v ->
  calls v' = alter (setStage Settled) id (calls v) ->
  renderTaskRef v' = renderTaskRef v \/ isLatest id v = true ->
  pipelineOwnedByLatest v'.
Proof.
  intros Hinv Hcalls Href id' c' Hc'.
  assert (Hlen : length (calls v') = length (calls v))
    by (rewrite Hcalls; apply length_alter).
  rewrite Hcalls, list_lookup_alter in Hc'.
  destruct (decide (id = id')) as [<- | Hne].
  - destruct (calls v !! id) as [c |]; [| discriminate Hc'].
    injection Hc' as <-. exact I.
  - specialize (Hinv id' c' Hc'). rewrite (isLatest_same_length id' v v' Hlen).
    destruct (stage c'); auto.
    intros Hnc. destruct (Hinv Hnc) as [Hl Hr]. split; [exact Hl |].
    destruct Href as [-> | Hl']; [exact Hr |].
    exfalso. apply Hne. apply (isLatest_unique _ _ v Hl' Hl).
Qed.

Lemma forallb_lookup {A : Type} (f : A -> bool) (l : list A) (i : nat) (x : A) :
  forallb f l = true -> l !! i = Some x -> f x = true.
Proof.
  intros H Hl. rewrite forallb_forall in H. apply H.
  apply list_elem_of_In. apply (list_elem_of_lookup_2 l i x Hl).
Qed.

Lemma isLatest_snoc (v : State) (l : list RenderCall) (x : RenderCall) :
  calls v = l ++ [x] -> isLatest (length l) v = true.
Proof.
  unfold isLatest. intros ->. rewrite length_app.
  apply Nat.eqb_eq. cbn [length]. lia.
Qed.

(** A request that overtakes nothing hands the pipeline to the new
    invocation: the stored task, if any, is cancelled first. *)
Lemma owned_after_renderPage (n : Z) (sc : Q) (v : State) :
  pipelineOwnedByLatest v ->
  forallb (fun c => negb (awaitsGetPage c)) (calls v) = true ->
  pipelineOwnedByLatest (fst (renderPage n sc v)).
Proof.
  intros Hinv Hall. unfold renderPage. simpl.
  assert (Hpast : forall id c, calls v !! id = Some c -> stage c <> AwaitGetPage).
  { intros id c Hc Hs. pose proof (forallb_lookup _ _ _ _ Hall Hc) as H.
    unfold awaitsGetPage in H. rewrite Hs in H. discriminate H. }
  destruct (renderTaskRef v) as [t |] eqn:Ht; simpl; intros id c Hc;
    simpl in Hc; apply lookup_snoc_Some in Hc;
    destruct Hc as [[Hlt Hold] | [-> <-]].
  - rewrite list_lookup_alter in Hold.
    destruct (decide (t = id)) as [<- | Hne].
    + destruct (calls v !! t) as [c0 |] eqn:Hc0; [| discriminate Hold].
      injection Hold as <-. simpl.
      destruct (stage c0) eqn:Hs; auto.
      * exfalso. apply (Hpast t c0 Hc0 Hs).
      * intros Hnc. discriminate Hnc.
    + specialize (Hinv id c Hold).
      destruct (stage c) eqn:Hs; auto.
      * exfalso. apply (Hpast id c Hold Hs).
      * intros Hnc. destruct (Hinv Hnc) as [_ Hr]. congruence.
  - cbn [stage]. eapply isLatest_snoc. reflexivity.
  - specialize (Hinv id c Hold).
    destruct (stage c) eqn:Hs; auto.
    + exfalso. apply (Hpast id c Hold Hs).
    + intros Hnc. destruct (Hinv Hnc) as [_ Hr]. congruence.
  - cbn [stage]. eapply isLatest_snoc. reflexivity.
Qed.

Lemma permitted_step_preserves (ev : Event) (v : State) :
  pipelineOwnedByLatest v ->
  permitted ev v = true ->
  pipelineOwnedByLatest (fst (step ev v)).
Proof.
  intros Hinv Hper.
  destruct ev as [n sc | i | i e | i | i e | b]; simpl in *.
  - (* Request *)
    unfold renderEffectAt. destruct (pdf v); [| exact Hinv].
    destruct (canvasRef v); [| exact Hinv].
    apply owned_after_renderPage; assumption.
  - (* GetPageResolved *)
    unfold getPageResolved.
    destruct (calls v !! i) as [c |] eqn:Hc; [| exact Hinv].
    destruct (stage c) eqn:Hs; try exact Hinv.
    pose proof (Hinv i c Hc) as Hi. rewrite Hs in Hi.
    destruct (canvasRef v); simpl.
    + intros id' c' Hc'. simpl in Hc'.
      rewrite list_lookup_alter in Hc'.
      unfold isLatest. simpl. rewrite length_alter. fold (isLatest id' v).
      destruct (decide (i = id')) as [<- | Hne].
      * rewrite Hc in Hc'. injection Hc' as <-. simpl. auto.
      * specialize (Hinv id' c' Hc').
        destruct (stage c'); auto.
        intros Hnc. destruct (Hinv Hnc) as [Hl _].
        exfalso. apply Hne. apply (isLatest_unique _ _ v Hi Hl).
    + apply (owned_after_settle i v); auto.
  - (* GetPageRejected *)
    unfold getPageRejected.
    destruct (calls v !! i) as [c |] eqn:Hc; [| exact Hinv].
    destruct (stage c) eqn:Hs; try exact Hinv.
    apply (owned_after_settle i v); auto.
  - (* RasterResolved *)
    unfold rasterResolved.
    destruct (calls v !! i) as [c |] eqn:Hc; [| exact Hinv].
    destruct (stage c) eqn:Hs; try exact Hinv.
    pose proof (Hinv i c Hc) as Hi. rewrite Hs in Hi.
    apply negb_true_iff in Hper. destruct (Hi Hper) as [Hl _].
    apply (owned_after_settle i v); auto.
  - (* RasterRejected *)
    unfold rasterRejected.
    destruct (calls v !! i) as [c |] eqn:Hc; [| exact Hinv].
    destruct (stage c) eqn:Hs; try exact Hinv.
    apply (owned_after_settle i v); auto.
  - exact Hinv.
Qed.

Lemma disciplined_run_by_latest (evs : list Event) :
  forall v, pipelineOwnedByLatest v ->
  disciplined evs v = true -> updatesOnlyByLatest evs v = true.
Proof.
  induction evs as [| ev evs IH]; intros v Hinv Hd; [reflexivity |].
  simpl in Hd. apply andb_true_iff in Hd as [Hper Hd].
  simpl. destruct (step ev v) as [v' o] eqn:Hstep.
  apply andb_true_iff. split.
  - destruct (resumed ev) as [id |] eqn:Hres; [| reflexivity].
    destruct (existsb visible o) eqn:Hvis; [| reflexivity]. simpl.
    apply (permitted_step_by_latest ev id v Hinv Hper Hres).
    rewrite Hstep. exact Hvis.
  - apply IH.
    + pose proof (permitted_step_preserves ev v Hinv Hper) as H.
      rewrite Hstep in H. exact H.
    + exact Hd.
Qed.

Lemma owned_when_fresh (v : State) : calls v = [] -> pipelineOwnedByLatest v.
Proof. intros Hc id c Hl. rewrite Hc in Hl. discriminate Hl. Qed.


Lemma cancellation_is_silent (id : nat) (m : string) (v : State) :
  snd (rasterRejected id (ErrorObj RenderingCancelledException m) v) = [].
Proof.
  unfold rasterRejected.
  destruct (calls v !! id) as [c |]; [| reflexivity].
  destruct (stage c); reflexivity.
Qed.

(** C1, as the claim words it, fails.  Page 1 is requested, then page 3
    before [pdf.getPage(1)] has resolved, so that no task is stored yet and
    none is cancelled; both rasters run, page 3 resolves first and page 1
    last.  The stale page 1 is committed after page 3, and [App], which had
    moved to page 3, is sent back to page 1. *)
Lemma overtaken_render_commits_last :
  let evs := [Request 1 1.2%Q; Request 3 1.2%Q;
              GetPageResolved 0; GetPageResolved 1;
              RasterResolved 1; RasterResolved 0] in
  snd (run evs ready)
    = [ResizeCanvas 0; StartRaster 0; ResizeCanvas 1; StartRaster 1;
       OnPageChange 3; OnPageChange 1] /\
  updatesOnlyByLatest evs ready = false /\
  App.currentPage
    (deliverAll (snd (run evs ready)) (App.handlePageChange 3 (fst loaded))) = 1.
Proof. vm_compute. repeat split. Qed.

(** C1 (amended): when the backend honours cancellation (the promise of a
    task whose [cancel()] was called never resolves) and no request arrives
    while an earlier invocation still waits for [pdf.getPage], then along
    every sequence of render requests and completions a visual update
    (sizing the canvas, starting a raster) or a page-committed callback
    happens only for the render that is the latest requested one at that
    moment; and a raster rejected with [RenderingCancelledException] is
    dropped with no callback and no error. *)
Theorem disciplined_updates_only_by_latest (evs : list Event) (v : State) :
  calls v = [] ->
  disciplined evs v = true ->
  updatesOnlyByLatest evs v = true /\
  (forall id m v',
     snd (step (RasterRejected id (ErrorObj RenderingCancelledException m)) v')
       = []).
Proof.
  intros Hfresh Hd. split.
  - apply disciplined_run_by_latest; [apply owned_when_fresh, Hfresh | exact Hd].
  - intros id m v'. apply cancellation_is_silent.
Qed.

Lemma disciplined_updates_only_by_latest_witness :
  let evs := [Request 1 1.2%Q; GetPageResolved 0; Request 3 1.2%Q;
              RasterRejected 0 (ErrorObj RenderingCancelledException "");
              GetPageResolved 1; RasterResolved 1] in
  updatesOnlyByLatest evs ready = true /\
  pageCommits (snd (run evs ready)) = [3].
Proof.
  split; [| reflexivity].
  apply (disciplined_updates_only_by_latest _ ready); reflexivity.
Defined.

(** C2, as the claim words it, fails: page 1's task is cancelled by the
    request for page 3; when its promise resolves all the same, the
    callback for page 1 is emitted. *)
Lemma cancelled_render_still_commits :
  let evs := [Request 1 1.2%Q; GetPageResolved 0; Request 3 1.2%Q] in
  let v := fst (run evs ready) in
  snd (run evs ready) = [ResizeCanvas 0; StartRaster 0; CancelTask 0] /\
  cancelRequested <$> calls v !! 0%nat = Some true /\
  isLatest 0 v = false /\
  snd (step (RasterResolved 0) v) = [OnPageChange 1].
Proof. vm_compute. repeat split. Qed.

(** C2 (amended): for a render whose task was cancelled, the discard rests
    on the cancellation taking effect: if its raster rejects with
    [RenderingCancelledException], no page-committed callback and no error
    are emitted; if it resolves all the same, the page-committed callback
    for its page is emitted. *)
Theorem cancelled_render_outcomes (id : nat) (c : RenderCall) (m : string)
    (v : State) :
  calls v !! id = Some c ->
  stage c = AwaitRaster ->
  cancelRequested c = true ->
  snd (rasterRejected id (ErrorObj RenderingCancelledException m) v) = [] /\
  snd (rasterResolved id v) = [OnPageChange (pageNumber c)].
Proof.
  intros Hc Hs _. split; [apply cancellation_is_silent |].
  unfold rasterResolved. rewrite Hc, Hs. reflexivity.
Qed.

Lemma cancelled_render_outcomes_witness :
  let v := fst (run [Request 1 1.2%Q; GetPageResolved 0; Request 3 1.2%Q] ready) in
  snd (rasterRejected 0 (ErrorObj RenderingCancelledException "") v) = [] /\
  snd (rasterResolved 0 v) = [OnPageChange 1].
Proof.
  apply (cancelled_render_outcomes 0 (mkCall 1 1.2%Q AwaitRaster true));
    reflexivity.
Defined.

(** C3, as the claim words it, fails: the render of page 1, superseded by
    the request for page 3, fails with an ordinary error, and the error is
    surfaced although the render is not the latest one. *)
Lemma stale_failure_is_surfaced :
  let v := fst (run [Request 1 1.2%Q; GetPageResolved 0; Request 3 1.2%Q] ready) in
  isLatest 0 v = false /\
  errorEvents (snd (step (RasterRejected 0 (ErrorObj "Error" "boom")) v))
    = [ErrorObj "Error" "boom"].
Proof. vm_compute. repeat split. Qed.

(** C3 (amended): when a raster fails with [RenderingCancelledException],
    no error is surfaced; when it fails with any other [Error], exactly one
    error event, carrying that error, is surfaced, whether or not the
    failing render is still the latest requested one. *)
Theorem raster_failure_events (id : nat) (c : RenderCall) (v : State) :
  calls v !! id = Some c ->
  stage c = AwaitRaster ->
  (forall m,
     errorEvents
       (snd (rasterRejected id (ErrorObj RenderingCancelledException m) v)) = []) /\
  (forall n m, n <> RenderingCancelledException ->
     errorEvents (snd (rasterRejected id (ErrorObj n m) v)) = [ErrorObj n m]).
Proof.
  intros Hc Hs. split.
  - intros m. rewrite cancellation_is_silent. reflexivity.
  - intros n m Hn. unfold rasterRejected. rewrite Hc, Hs. simpl.
    destruct (String.eqb n "RenderingCancelledException") eqn:E.
    + apply String.eqb_eq in E. contradiction.
    + reflexivity.
Qed.

Lemma raster_failure_events_witness :
  let v := fst (run [Request 1 1.2%Q; GetPageResolved 0] ready) in
  isLatest 0 v = true /\
  errorEvents (snd (rasterRejected 0 (ErrorObj "Error" "boom") v))
    = [ErrorObj "Error" "boom"].
Proof.
  split; [reflexivity |].
  apply (raster_failure_events 0 (mkCall 1 1.2%Q AwaitRaster false));
    [reflexivity | reflexivity |].
  intros H. discriminate H.
Defined.

End RenderPipeline.

(** ** [App] over its lifetime *)

Lemma dispatchAll_invariant (P : App.State -> Prop) :
  (forall x a, P a -> P (dispatch x a)) ->
  forall xs a, P a -> P (dispatchAll xs a).
Proof.
  intros Hstep xs. unfold dispatchAll.
  induction xs as [| x xs IH]; intros a Ha; simpl; [exact Ha |].
  apply IH, Hstep, Ha.
Qed.

Lemma dispatch_scale_bounded (x : Action) (a : App.State) :
  inScaleBounds (App.scale a) -> inScaleBounds (App.scale (dispatch x a)).
Proof.
  assert (Hd : inScaleBounds 1.2%Q) by (unfold inScaleBounds; lra).
  intros Hb. destruct x; simpl; try exact Hb.
  - unfold App.handleFileChange. destruct (head files); [| exact Hb].
    destruct (negb (isPDFFile f)); exact Hb.
  - unfold App.handleDrop. destruct (head files); [| exact Hb].
    destruct (negb (isPDFFile f)); exact Hb.
  - exact Hd.
  - unfold App.handleExportFile. destruct (App.currentFile a); [| exact Hb].
    destruct o; [exact Hd | exact Hb].
  - unfold App.handlePageChange.
    destruct ((1 <=? page) && (page <=? App.totalPages a)); exact Hb.
  - unfold App.handlePrevPage. destruct (1 <? App.currentPage a); exact Hb.
  - unfold App.handleNextPage.
    destruct (App.currentPage a <? App.totalPages a); exact Hb.
  - apply zoomIn_bounded, Hb.
  - apply zoomOut_bounded, Hb.
  - unfold handlePageChangeFrom.
    destruct ((1 <=? page) && (page <=? captured)); exact Hb.
Qed.

Lemma dispatchAll_scale_bounded (xs : list Action) :
  inScaleBounds (App.scale (dispatchAll xs App.init)).
Proof.
  apply (dispatchAll_invariant (fun a => inScaleBounds (App.scale a))).
  - apply dispatch_scale_bounded.
  - unfold inScaleBounds. simpl. lra.
Qed.

(** X1: whatever the user and the viewer do, [App]'s scale stays within
    [0.5, 3.0]. *)
Theorem app_scale_always_in_bounds (xs : list Action) :
  inScaleBounds (App.scale (dispatchAll xs App.init)).
Proof.
  apply (dispatchAll_invariant (fun a => inScaleBounds (App.scale a))).
  - apply dispatch_scale_bounded.
  - unfold inScaleBounds. simpl. lra.
Qed.

Lemma dispatch_page_floor (x : Action) (a : App.State) :
  (1 <= App.currentPage a /\
   App.totalPages a = match App.pdf a with Some d => numPages d | None => 0 end) ->
  1 <= App.currentPage (dispatch x a) /\
  App.totalPages (dispatch x a)
    = match App.pdf (dispatch x a) with Some d => numPages d | None => 0 end.
Proof.
  intros [Hr Ht]. destruct x; simpl; try (split; [exact Hr | exact Ht]).
  - unfold App.handleFileChange. destruct (head files); [| auto].
    destruct (negb (isPDFFile f)); simpl; auto.
  - unfold App.handleDrop. destruct (head files); [| auto].
    destruct (negb (isPDFFile f)); simpl; auto.
  - split; [lia | reflexivity].
  - unfold App.handleExportFile. destruct (App.currentFile a); [| auto].
    destruct o; simpl; [split; [lia | reflexivity] | auto].
  - split; [lia | reflexivity].
  - unfold App.handlePageChange.
    destruct (1 <=? page) eqn:E1; destruct (page <=? App.totalPages a) eqn:E2;
      simpl; auto. split; [lia | exact Ht].
  - unfold App.handlePrevPage. destruct (1 <? App.currentPage a) eqn:E;
      simpl; auto. split; [lia | exact Ht].
  - unfold App.handleNextPage.
    destruct (App.currentPage a <? App.totalPages a) eqn:E; simpl; auto.
    split; [lia | exact Ht].
  - unfold handlePageChangeFrom.
    destruct (1 <=? page) eqn:E1; destruct (page <=? captured) eqn:E2;
      simpl; auto. split; [lia | exact Ht].
Qed.

Lemma dispatch_page_ceiling (x : Action) (a : App.State) :
  isLate x = false ->
  App.currentPage a <= Z.max 1 (App.totalPages a) ->
  App.currentPage (dispatch x a) <= Z.max 1 (App.totalPages (dispatch x a)).
Proof.
  intros Hx Hr. destruct x; simpl; try exact Hr; try discriminate Hx.
  - unfold App.handleFileChange. destruct (head files); [| auto].
    destruct (negb (isPDFFile f)); simpl; auto.
  - unfold App.handleDrop. destruct (head files); [| auto].
    destruct (negb (isPDFFile f)); simpl; auto.
  - lia.
  - unfold App.handleExportFile. destruct (App.currentFile a); [| auto].
    destruct o; simpl; [lia | auto].
  - lia.
  - unfold App.handlePageChange.
    destruct (1 <=? page) eqn:E1; destruct (page <=? App.totalPages a) eqn:E2;
      simpl; auto. lia.
  - unfold App.handlePrevPage. destruct (1 <? App.currentPage a) eqn:E;
      simpl; auto. lia.
  - unfold App.handleNextPage.
    destruct (App.currentPage a <? App.totalPages a) eqn:E; simpl; auto. lia.
Qed.

Lemma dispatchAll_page_ceiling (xs : list Action) :
  forall a, forallb (fun x => negb (isLate x)) xs = true ->
  App.currentPage a <= Z.max 1 (App.totalPages a) ->
  App.currentPage (dispatchAll xs a)
    <= Z.max 1 (App.totalPages (dispatchAll xs a)).
Proof.
  unfold dispatchAll.
  induction xs as [| x xs IH]; intros a Hall Hr; simpl in *; [exact Hr |].
  apply andb_true_iff in Hall as [Hx Hall]. apply negb_true_iff in Hx.
  apply IH; [exact Hall | apply dispatch_page_ceiling; assumption].
Qed.

(** X2: whatever happens, late callbacks of renders included, [App]'s
    current page is at least 1, and the page count is that of the held
    document, 0 without one; as long as no callback of an earlier render
    arrives, the current page is also at most the page count (or 1 while
    the page count is 0). *)
Theorem app_page_always_consistent (xs : list Action) :
  let a := dispatchAll xs App.init in
  1 <= App.currentPage a /\
  App.totalPages a = match App.pdf a with Some d => numPages d | None => 0 end /\
  (forallb (fun x => negb (isLate x)) xs = true ->
   App.currentPage a <= Z.max 1 (App.totalPages a)).
Proof.
  cbv zeta.
  assert (H : 1 <= App.currentPage (dispatchAll xs App.init) /\
              App.totalPages (dispatchAll xs App.init)
              = match App.pdf (dispatchAll xs App.init) with
                | Some d => numPages d | None => 0 end).
  { apply (dispatchAll_invariant (fun a =>
      1 <= App.currentPage a /\
      App.totalPages a = match App.pdf a with Some d => numPages d | None => 0 end)).
    - apply dispatch_page_floor.
    - simpl. split; [lia | reflexivity]. }
  destruct H as [H1 H2]. split; [exact H1 | split; [exact H2 |]].
  intros Hall. apply dispatchAll_page_ceiling; [exact Hall | simpl; lia].
Qed.

Lemma app_page_always_consistent_witness :
  App.currentPage
    (dispatchAll [FileChange [fileA]; LoadSuccess doc5; PageChange 4;
                  NextPageClick; NextPageClick] App.init) <= 5.
Proof.
  pose proof (app_page_always_consistent
    [FileChange [fileA]; LoadSuccess doc5; PageChange 4;
     NextPageClick; NextPageClick]) as (_ & _ & H).
  apply H. reflexivity.
Defined.

Lemma dispatch_loading_false (x : Action) (a : App.State) :
  App.loading a = false -> App.loading (dispatch x a) = false.
Proof.
  intros Hl. destruct x; simpl; try exact Hl; try reflexivity.
  - unfold App.handleFileChange. destruct (head files); [| exact Hl].
    destruct (negb (isPDFFile f)); exact Hl.
  - unfold App.handleDrop. destruct (head files); [| exact Hl].
    destruct (negb (isPDFFile f)); exact Hl.
  - unfold App.handleExportFile. destruct (App.currentFile a); [| exact Hl].
    destruct o; exact Hl.
  - unfold App.handlePageChange.
    destruct ((1 <=? page) && (page <=? App.totalPages a)); exact Hl.
  - unfold App.handlePrevPage. destruct (1 <? App.currentPage a); exact Hl.
  - unfold App.handleNextPage.
    destruct (App.currentPage a <? App.totalPages a); exact Hl.
  - unfold handlePageChangeFrom.
    destruct ((1 <=? page) && (page <=? captured)); exact Hl.
Qed.

Lemma dispatchAll_loading_false (xs : list Action) :
  let a := dispatchAll xs App.init in
  App.loading a = false /\
  Toolbar.pageInputDisabled (toolbarProps a) = false /\
  Toolbar.prevDisabled (toolbarProps a) = (App.currentPage a <=? 1) /\
  Toolbar.nextDisabled (toolbarProps a)
    = (App.totalPages a <=? App.currentPage a).
Proof.
  assert (H : App.loading (dispatchAll xs App.init) = false).
  { apply (dispatchAll_invariant (fun a => App.loading a = false));
      [apply dispatch_loading_false | reflexivity]. }
  cbv zeta. unfold Toolbar.pageInputDisabled, Toolbar.prevDisabled,
    Toolbar.nextDisabled. simpl. rewrite H, !orb_false_r. auto.
Qed.

(** X3: [App]'s loading flag is never true: no handler sets it, so the
    toolbar's page field is never disabled and the previous and next buttons
    are disabled by the page bounds only. *)
Theorem app_loading_never_true (xs : list Action) :
  let a := dispatchAll xs App.init in
  App.loading a = false /\
  Toolbar.pageInputDisabled (toolbarProps a) = false /\
  Toolbar.prevDisabled (toolbarProps a) = (App.currentPage a <=? 1) /\
  Toolbar.nextDisabled (toolbarProps a)
    = (App.totalPages a <=? App.currentPage a).
Proof.
  assert (H : App.loading (dispatchAll xs App.init) = false).
  { apply (dispatchAll_invariant (fun a => App.loading a = false));
      [apply dispatch_loading_false | reflexivity]. }
  cbv zeta. unfold Toolbar.pageInputDisabled, Toolbar.prevDisabled,
    Toolbar.nextDisabled. simpl. rewrite H, !orb_false_r. auto.
Qed.

(** ** Zooming *)

Section ZoomFacts.

Local Open Scope Q_scope.

Lemma zoomIn_unclamped (s : Q) : s * 1.2 <= 3 -> zoomIn s == s * 1.2.
Proof. intros H. unfold zoomIn, Math_min. apply Q.min_l, H. Qed.

Lemma zoomIn_clamped (s : Q) : 3 <= s * 1.2 -> zoomIn s == 3.
Proof. intros H. unfold zoomIn, Math_min. apply Q.min_r, H. Qed.

Lemma div_1_2 (s : Q) : s / 1.2 == s * (5 # 6).
Proof. unfold Qdiv. apply Qmult_comp; reflexivity. Qed.

Lemma zoomOut_unclamped (s : Q) : 0.5 <= s / 1.2 -> zoomOut s == s / 1.2.
Proof. intros H. unfold zoomOut, Math_max. apply Q.max_l, H. Qed.

Lemma zoomOut_clamped (s : Q) : s / 1.2 <= 0.5 -> zoomOut s == 0.5.
Proof. intros H. unfold zoomOut, Math_max. apply Q.max_r, H. Qed.

Lemma zoomIn_compat (s t : Q) : s == t -> zoomIn s == zoomIn t.
Proof.
  intros E. unfold zoomIn, Math_min. apply Q.min_compat; [| reflexivity].
  rewrite E. reflexivity.
Qed.

Lemma zoomOut_compat (s t : Q) : s == t -> zoomOut s == zoomOut t.
Proof.
  intros E. unfold zoomOut, Math_max. apply Q.max_compat; [| reflexivity].
  rewrite E. reflexivity.
Qed.

End ZoomFacts.

Section WheelFacts.

Local Open Scope Q_scope.

Lemma wheelZoom_out_unclamped (dy s : Q) :
  0 < dy -> 0.5 <= s * 0.9 -> s * 0.9 <= 3 -> Viewer.wheelZoom dy s == s * 0.9.
Proof.
  intros Hdy Hlo Hhi. unfold Viewer.wheelZoom, Math_max, Math_min.
  apply gt0_spec in Hdy. rewrite Hdy.
  rewrite (Q.min_r 3 (s * 0.9) Hhi). apply Q.max_r, Hlo.
Qed.

Lemma wheelZoom_in_unclamped (dy s : Q) :
  dy <= 0 -> 0.5 <= s * 1.1 -> s * 1.1 <= 3 -> Viewer.wheelZoom dy s == s * 1.1.
Proof.
  intros Hdy Hlo Hhi. unfold Viewer.wheelZoom, Math_max, Math_min.
  destruct (gt0 dy) eqn:E; [apply gt0_spec in E; lra |].
  rewrite (Q.min_r 3 (s * 1.1) Hhi). apply Q.max_r, Hlo.
Qed.

Lemma wheelZoom_compat (dy s t : Q) :
  s == t -> Viewer.wheelZoom dy s == Viewer.wheelZoom dy t.
Proof.
  intros E. unfold Viewer.wheelZoom, Math_max, Math_min.
  apply Q.max_compat; [reflexivity |]. apply Q.min_compat; [reflexivity |].
  rewrite E. reflexivity.
Qed.

End WheelFacts.

(** X5: the wheel does not undo itself: from a scale above 0.5, one notch
    in followed by one notch out leaves a strictly smaller scale; so does
    one notch out followed by one notch in, from a scale whose 0.9-fold is
    at least 0.5. *)
Theorem wheel_in_then_out_shrinks (up down s : Q) :
  (up <= 0 -> 0 < down ->
   (0.5 < s -> Viewer.wheelZoom down (Viewer.wheelZoom up s) < s) /\
   (0.5 <= s * 0.9 -> Viewer.wheelZoom up (Viewer.wheelZoom down s) < s))%Q.
Proof.
  intros Hup Hdown.
  assert (Eup : gt0 up = false).
  { destruct (gt0 up) eqn:E; [apply gt0_spec in E; lra | reflexivity]. }
  assert (Edown : gt0 down = true) by (apply gt0_spec, Hdown).
  unfold Viewer.wheelZoom, Math_max, Math_min. rewrite Eup, Edown.
  split; intros Hs.
  - pose proof (Q.min_spec 3 (s * 1.1)) as M1.
    set (a1 := Qmin 3 (s * 1.1)) in *.
    pose proof (Q.max_spec 0.5 a1) as M2. set (a2 := Qmax 0.5 a1) in *.
    pose proof (Q.min_spec 3 (a2 * 0.9)) as M3.
    set (a3 := Qmin 3 (a2 * 0.9)) in *.
    pose proof (Q.max_spec 0.5 a3) as M4. set (a4 := Qmax 0.5 a3) in *.
    clearbody a4 a3 a2 a1.
    destruct M1 as [[? ?] | [? ?]]; destruct M2 as [[? ?] | [? ?]];
      destruct M3 as [[? ?] | [? ?]]; destruct M4 as [[? ?] | [? ?]]; lra.
  - pose proof (Q.min_spec 3 (s * 0.9)) as M1.
    set (a1 := Qmin 3 (s * 0.9)) in *.
    pose proof (Q.max_spec 0.5 a1) as M2. set (a2 := Qmax 0.5 a1) in *.
    pose proof (Q.min_spec 3 (a2 * 1.1)) as M3.
    set (a3 := Qmin 3 (a2 * 1.1)) in *.
    pose proof (Q.max_spec 0.5 a3) as M4. set (a4 := Qmax 0.5 a3) in *.
    clearbody a4 a3 a2 a1.
    destruct M1 as [[? ?] | [? ?]]; destruct M2 as [[? ?] | [? ?]];
      destruct M3 as [[? ?] | [? ?]]; destruct M4 as [[? ?] | [? ?]]; lra.
Qed.

Lemma wheel_in_then_out_shrinks_witness :
  (Viewer.wheelZoom 100 (Viewer.wheelZoom (-100) 1.2) < 1.2)%Q.
Proof.
  assert (H1 : (-100 <= 0)%Q) by lra.
  assert (H2 : (0 < 100)%Q) by lra.
  assert (H3 : (0.5 < 1.2)%Q) by lra.
  pose proof (wheel_in_then_out_shrinks (-100) 100 1.2 H1 H2) as [H _].
  exact (H H3).
Defined.

(** X6: with the scale within [0.5, 3.0], the toolbar disables a zoom button
    exactly when pressing it would leave the scale as it is; an enabled
    zoom-in strictly enlarges and an enabled zoom-out strictly reduces. *)
Theorem zoom_button_disabled_iff_no_effect (a : App.State) :
  inScaleBounds (App.scale a) ->
  (Toolbar.zoomInDisabled (toolbarProps a) = true <->
     App.scale (App.handleZoomIn a) == App.scale a)%Q /\
  (Toolbar.zoomInDisabled (toolbarProps a) = false <->
     App.scale a < App.scale (App.handleZoomIn a))%Q /\
  (Toolbar.zoomOutDisabled (toolbarProps a) = true <->
     App.scale (App.handleZoomOut a) == App.scale a)%Q /\
  (Toolbar.zoomOutDisabled (toolbarProps a) = false <->
     App.scale (App.handleZoomOut a) < App.scale a)%Q.
Proof.
  intros [Hlo Hhi]. unfold Toolbar.zoomInDisabled, Toolbar.zoomOutDisabled.
  simpl. set (s := App.scale a) in *.
  assert (Hin : (3 <= s -> zoomIn s == s)%Q).
  { intros H. rewrite zoomIn_clamped; lra. }
  assert (Hin' : (s < 3 -> s < zoomIn s)%Q).
  { intros H. unfold zoomIn, Math_min.
    destruct (Q.min_spec (s * 1.2) 3) as [[_ E] | [_ E]]; rewrite E; lra. }
  assert (Hout : (s <= 0.5 -> zoomOut s == s)%Q).
  { intros H. rewrite zoomOut_clamped; [lra |]. rewrite div_1_2. lra. }
  assert (Hout' : (0.5 < s -> zoomOut s < s)%Q).
  { intros H. unfold zoomOut, Math_max.
    destruct (Q.max_spec (s / 1.2) 0.5) as [[_ E] | [_ E]]; rewrite E;
      [lra | rewrite div_1_2; lra]. }
  destruct (Qle_bool 3 s) eqn:E3; destruct (Qle_bool s 0.5) eqn:E5;
    repeat match goal with
    | H : Qle_bool _ _ = true |- _ => apply Qle_bool_iff in H
    | H : Qle_bool ?x ?y = false |- _ =>
        assert (y < x)%Q
          by (destruct (Qlt_le_dec y x) as [? | Hle]; [assumption |];
              apply Qle_bool_iff in Hle; congruence);
        clear H
    end;
    repeat split; intros; try reflexivity; try discriminate; auto;
    try lra;
    try (exfalso;
         match goal with
         | H : (zoomIn s == s)%Q |- _ => pose proof (Hin' ltac:(lra)); lra
         | H : (zoomOut s == s)%Q |- _ => pose proof (Hout' ltac:(lra)); lra
         | H : (s < zoomIn s)%Q |- _ => pose proof (Hin ltac:(lra)); lra
         | H : (zoomOut s < s)%Q |- _ => pose proof (Hout ltac:(lra)); lra
         end).
Qed.

Lemma zoom_button_disabled_iff_no_effect_witness :
  Toolbar.zoomInDisabled (toolbarProps App.init) = false /\
  (App.scale App.init < App.scale (App.handleZoomIn App.init))%Q.
Proof.
  assert (Hb : inScaleBounds (App.scale App.init))
    by (unfold inScaleBounds; simpl; lra).
  pose proof (zoom_button_disabled_iff_no_effect App.init Hb) as (_ & H & _).
  split; [reflexivity | apply H; reflexivity].
Defined.

(** X7: at any moment of [App]'s life, the toolbar disables the previous
    (next) button exactly when pressing it would change nothing; an enabled
    button moves the current page by exactly one. *)
Theorem page_button_disabled_iff_no_effect (xs : list Action) :
  let a := dispatchAll xs App.init in
  (Toolbar.prevDisabled (toolbarProps a) = true <-> App.handlePrevPage a = a) /\
  (Toolbar.prevDisabled (toolbarProps a) = false <->
     App.currentPage (App.handlePrevPage a) = App.currentPage a - 1) /\
  (Toolbar.nextDisabled (toolbarProps a) = true <-> App.handleNextPage a = a) /\
  (Toolbar.nextDisabled (toolbarProps a) = false <->
     App.currentPage (App.handleNextPage a) = App.currentPage a + 1).
Proof.
  pose proof (dispatchAll_loading_false xs) as (_ & _ & Hp & Hn).
  cbv zeta in *. set (a := dispatchAll xs App.init) in *.
  rewrite Hp, Hn. unfold App.handlePrevPage, App.handleNextPage.
  destruct (App.currentPage a <=? 1) eqn:E1;
    destruct (1 <? App.currentPage a) eqn:E1'; try lia;
    destruct (App.totalPages a <=? App.currentPage a) eqn:E2;
    destruct (App.currentPage a <? App.totalPages a) eqn:E2'; try lia;
    simpl; repeat split; intros; try reflexivity; try discriminate; try lia;
    match goal with
    | H : App.setCurrentPage _ _ = _ |- _ =>
        apply (f_equal App.currentPage) in H; simpl in H; lia
    end.
Qed.

Section PercentageFacts.

Local Open Scope Q_scope.

Lemma Math_round_bounds (x : Q) (lo hi : Z) :
  inject_Z lo <= x + (1 # 2) -> x + (1 # 2) < inject_Z (hi + 1) ->
  (lo <= Toolbar.Math_round x <= hi)%Z.
Proof.
  intros Hlo Hhi. unfold Toolbar.Math_round. split.
  - rewrite <- (Qfloor_Z lo). apply Qfloor_resp_le, Hlo.
  - assert (H : (Qfloor (x + (1 # 2)) < hi + 1)%Z).
    { destruct (Z_lt_le_dec (Qfloor (x + (1 # 2))) (hi + 1)) as [Hlt | Hge];
        [exact Hlt | exfalso].
      pose proof (Qfloor_le (x + (1 # 2))) as Hf.
      assert (inject_Z (hi + 1) <= inject_Z (Qfloor (x + (1 # 2))))
        by (rewrite <- Zle_Qle; exact Hge).
      lra. }
    lia.
Qed.

End PercentageFacts.

(** X8: the zoom percentage shown by the toolbar is always between 50 and
    300, and is 120 at the start. *)
Theorem shown_percentage_in_range (xs : list Action) :
  50 <= Toolbar.scalePercentage (toolbarProps (dispatchAll xs App.init)) <= 300 /\
  Toolbar.scalePercentage (toolbarProps App.init) = 120.
Proof.
  split; [| reflexivity].
  destruct (dispatchAll_scale_bounded xs) as [Hlo Hhi].
  unfold Toolbar.scalePercentage. simpl.
  apply Math_round_bounds.
  - change (inject_Z 50) with 50%Q. lra.
  - change (inject_Z (300 + 1)) with 301%Q. lra.
Qed.

(** ** The wheel's debounce *)

Lemma handleWheel_scale (ev : Viewer.WheelEvent) (v : Viewer.State) :
  Viewer.scale (fst (Viewer.handleWheel ev v)) = Viewer.scale v.
Proof. unfold Viewer.handleWheel. destruct (Viewer.ctrlKey ev); reflexivity. Qed.

Lemma wheelBurst_scale (evs : list Viewer.WheelEvent) (v : Viewer.State) :
  Viewer.scale (wheelBurst evs v) = Viewer.scale v.
Proof.
  unfold wheelBurst. revert v.
  induction evs as [| ev evs IH]; intros v; simpl; [reflexivity |].
  rewrite IH. apply handleWheel_scale.
Qed.

Lemma wheelBurst_app (xs ys : list Viewer.WheelEvent) (v : Viewer.State) :
  wheelBurst (xs ++ ys) v = wheelBurst ys (wheelBurst xs v).
Proof. unfold wheelBurst. apply fold_left_app. Qed.

Lemma wheelBurst_plain (evs : list Viewer.WheelEvent) (v : Viewer.State) :
  forallb (fun ev => negb (Viewer.ctrlKey ev)) evs = true ->
  wheelBurst evs v = v.
Proof.
  unfold wheelBurst. revert v.
  induction evs as [| ev evs IH]; intros v H; simpl in *; [reflexivity |].
  apply andb_true_iff in H as [H1 H2].
  unfold Viewer.handleWheel at 2.
  destruct (Viewer.ctrlKey ev); [discriminate H1 |]. simpl. apply IH, H2.
Qed.

(** X9: a burst of wheel events collapses into its last ctrl-wheel event:
    while the timer is pending the scale does not move, and when the timer
    fires the scale is zoomed once, by that event's [deltaY]; wheel events
    without ctrl do not count, and a second firing changes nothing. *)
Theorem wheel_burst_collapses (pre post : list Viewer.WheelEvent)
    (last : Viewer.WheelEvent) (v : Viewer.State) :
  Viewer.ctrlKey last = true ->
  forallb (fun ev => negb (Viewer.ctrlKey ev)) post = true ->
  let pending := wheelBurst (pre ++ last :: post) v in
  Viewer.scale pending = Viewer.scale v /\
  Viewer.scale (Viewer.wheelTimeoutFired pending)
    = Viewer.wheelZoom (Viewer.deltaY last) (Viewer.scale v) /\
  Viewer.wheelTimeoutFired (Viewer.wheelTimeoutFired pending)
    = Viewer.wheelTimeoutFired pending.
Proof.
  intros Hctrl Hpost. cbv zeta.
  split; [apply wheelBurst_scale |].
  rewrite wheelBurst_app.
  change (last :: post) with ([last] ++ post). rewrite wheelBurst_app.
  rewrite (wheelBurst_plain post _ Hpost).
  unfold wheelBurst at 1. simpl. unfold Viewer.handleWheel. rewrite Hctrl.
  simpl. unfold Viewer.wheelTimeoutFired. simpl.
  rewrite wheelBurst_scale. split; reflexivity.
Qed.

Lemma wheel_burst_collapses_witness :
  Viewer.scale
    (Viewer.wheelTimeoutFired
       (wheelBurst [Viewer.mkWheel true 5; Viewer.mkWheel true (-3);
                    Viewer.mkWheel false 7] ready))
  = Viewer.wheelZoom (-3) 1.2.
Proof.
  apply (wheel_burst_collapses [Viewer.mkWheel true 5] [Viewer.mkWheel false 7]
           (Viewer.mkWheel true (-3)) ready); reflexivity.
Defined.

(** ** Controlled props and the viewer's own page and scale *)

(** X10: after the two mirroring effects have run, the viewer's own page
    and scale are the active ones (the external values when given, its own
    otherwise); running the effects again changes nothing, and the render
    pipeline's state is not touched. *)
Theorem sync_adopts_external (p : Viewer.Props) (v : Viewer.State) :
  let v' := syncExternal p v in
  Viewer.currentPage v' = Viewer.activePage p v /\
  (Viewer.scale v' == Viewer.activeScaleOf p v)%Q /\
  syncExternal p v' = v' /\
  pipelineOf v' = pipelineOf v.
Proof.
  unfold syncExternal, syncScale, syncCurrentPage, Viewer.activePage,
    Viewer.activeScaleOf, pipelineOf.
  destruct (Viewer.externalCurrentPage p) as [n |];
    destruct (Viewer.externalScale p) as [sc |]; cbv zeta;
    try destruct (n =? Viewer.currentPage v) eqn:En;
    try destruct (Qeq_bool sc (Viewer.scale v)) eqn:Es;
    simpl; rewrite ?En, ?Es, ?Z.eqb_refl, ?Qeq_bool_refl; simpl;
    rewrite ?En, ?Es, ?Z.eqb_refl, ?Qeq_bool_refl; simpl;
    repeat split; rewrite ?En, ?Es; simpl; try reflexivity;
    try (apply Z.eqb_eq in En; lia);
    try (apply Qeq_bool_iff in Es; symmetry; exact Es).
Qed.

(** X11: in controlled mode, which is how [App] mounts the viewer, a key
    neither reads nor writes the viewer's own page: whatever that page is,
    the handler asks [App] for the same page and leaves it in place. *)
Theorem controlled_keys_ignore_own_page (a : App.State)
    (ev : Viewer.KeyboardEvent) (x : Z) (v : Viewer.State) :
  Viewer.handleKeyDown (propsOf a) ev (Viewer.setCurrentPage x v)
  = (Viewer.setCurrentPage x (fst (Viewer.handleKeyDown (propsOf a) ev v)),
     snd (Viewer.handleKeyDown (propsOf a) ev v)).
Proof.
  unfold Viewer.handleKeyDown, Viewer.goTo, Viewer.activePage. simpl.
  destruct (Viewer.pdf v) as [doc |]; [| reflexivity].
  destruct (Viewer.target ev); try reflexivity.
  repeat match goal with
  | |- context [if ?b then _ else _] => destruct b
  end; reflexivity.
Qed.

(** ** Panning *)

Lemma mouse_keeps_pipeline (p : Viewer.Props) (c : bool) (m : Pan.Mouse)
    (v : Viewer.State) :
  pipelineOf (fst (Pan.mouse p c m v)) = pipelineOf v /\
  Viewer.currentPage (fst (Pan.mouse p c m v)) = Viewer.currentPage v /\
  Viewer.scale (fst (Pan.mouse p c m v)) = Viewer.scale v.
Proof.
  destruct m as [e | e |]; simpl;
    unfold Pan.handleMouseDown, Pan.handleMouseMove, Pan.handleMouseUp.
  - destruct (Pan.listening p && Pan.onCanvas e v); repeat split.
  - destruct (Pan.listening p && Viewer.isPanning v && c); repeat split.
  - destruct (Pan.listening p); repeat split.
Qed.

Lemma pair_eq (a b c d : Z) : a = c -> b = d -> (a, b) = (c, d).
Proof. intros -> ->. reflexivity. Qed.

Lemma handleMouseMoveOn_current (p : Viewer.Props) (c : bool)
    (e : Pan.MouseEvent) (v : Viewer.State) :
  Pan.handleMouseMoveOn (Pan.capture v) p c e v = Pan.handleMouseMove p c e v.
Proof. reflexivity. Qed.

Lemma gestureRun_move_effect (p : Viewer.Props) (e : Pan.MouseEvent)
    (gs : list Pan.Gesture) (v : Viewer.State) :
  Pan.listening p = true ->
  Viewer.isPanning v = true ->
  Pan.gestureRun p true (Pan.GMove e :: Pan.GEffect :: gs) v (Pan.capture v)
  = let v1 := Pan.setLastPanPoint (Pan.clientX e, Pan.clientY e) v in
    let r := Pan.gestureRun p true gs v1 (Pan.capture v1) in
    (fst (fst r), snd (fst r),
     Pan.ScrollBy (- (Pan.clientX e - fst (Viewer.lastPanPoint v)))
                  (- (Pan.clientY e - snd (Viewer.lastPanPoint v))) :: snd r).
Proof.
  intros Hl Hp. cbn [Pan.gestureRun]. unfold Pan.handleMouseMoveOn.
  cbn [Pan.heldPanning Pan.heldPoint Pan.capture]. rewrite Hl, Hp.
  cbn [andb fst snd]. cbv zeta.
  destruct (Pan.gestureRun p true gs
              (Pan.setLastPanPoint (Pan.clientX e, Pan.clientY e) v)
              (Pan.capture (Pan.setLastPanPoint (Pan.clientX e, Pan.clientY e) v)))
    as [[v2 k2] o2].
  reflexivity.
Qed.

(** Two moves reaching the same listeners are both measured from the point
    these listeners hold: the way from (10, 20) to (13, 18) is counted
    twice. *)
Example stale_listener_counts_twice :
  let p := Viewer.mkProps (Some fileA) None None hand in
  let v := fst (Pan.handleMouseDown p (Pan.mkMouse 10 20 Pan.OnCanvas) ready) in
  Pan.scrolled
    (snd (Pan.gestureRun p true
            [Pan.GMove (Pan.mkMouse 13 18 Pan.Elsewhere);
             Pan.GMove (Pan.mkMouse 40 5 Pan.OnCanvas)] v (Pan.capture v)))
  = (-33, 17).
Proof. reflexivity. Qed.

(** X12: during a drag with the hand tool in which the pan effect runs
    again after every mouse move, so that each move reaches listeners
    holding the point of the move before, the amounts subtracted from
    [scrollLeft] and [scrollTop] add up to the pointer's displacement since
    the drag began; the anchor ends at the last pointer position, the
    listeners hold it, and the drag stays active.  (The browser keeps the
    scroll position within the scrollable range.) *)
Theorem drag_scroll_adds_up (p : Viewer.Props) (es : list Pan.MouseEvent)
    (v : Viewer.State) :
  Pan.listening p = true ->
  Viewer.isPanning v = true ->
  let r := Pan.gestureRun p true (Pan.refreshed es) v (Pan.capture v) in
  let stop := match last es with
              | Some e => (Pan.clientX e, Pan.clientY e)
              | None => Viewer.lastPanPoint v
              end in
  Pan.scrolled (snd r)
    = (fst (Viewer.lastPanPoint v) - fst stop,
       snd (Viewer.lastPanPoint v) - snd stop) /\
  Viewer.lastPanPoint (fst (fst r)) = stop /\
  Viewer.isPanning (fst (fst r)) = true /\
  snd (fst r) = Pan.capture (fst (fst r)).
Proof.
  intros Hl. revert v.
  induction es as [| e es IH]; intros v Hp; cbv zeta.
  - simpl. repeat split; try assumption.
    destruct (Viewer.lastPanPoint v); simpl. apply pair_eq; lia.
  - change (Pan.refreshed (e :: es))
      with (Pan.GMove e :: Pan.GEffect :: Pan.refreshed es).
    rewrite (gestureRun_move_effect p e (Pan.refreshed es) v Hl Hp).
    cbv zeta.
    set (v1 := Pan.setLastPanPoint (Pan.clientX e, Pan.clientY e) v).
    specialize (IH v1 Hp). cbv zeta in IH.
    destruct (Pan.gestureRun p true (Pan.refreshed es) v1 (Pan.capture v1))
      as [[v2 k2] o2].
    assert (Hlast : last (e :: es)
                    = match last es with Some x => Some x | None => Some e end)
      by apply last_cons.
    rewrite Hlast.
    cbn [fst snd] in *.
    change (Pan.scrolled
              (Pan.ScrollBy (- (Pan.clientX e - fst (Viewer.lastPanPoint v)))
                 (- (Pan.clientY e - snd (Viewer.lastPanPoint v))) :: o2))
      with (- (Pan.clientX e - fst (Viewer.lastPanPoint v)) + fst (Pan.scrolled o2),
            - (Pan.clientY e - snd (Viewer.lastPanPoint v)) + snd (Pan.scrolled o2)).
    destruct IH as (Hs & Ha & Hpan & Hk). rewrite Hs.
    change (Viewer.lastPanPoint v1) with (Pan.clientX e, Pan.clientY e) in *.
    destruct (last es) as [e' |]; cbn [fst snd] in *;
      repeat split; try assumption; apply pair_eq; lia.
Qed.

Lemma drag_scroll_adds_up_witness :
  let p := Viewer.mkProps (Some fileA) None None hand in
  let v := fst (Pan.handleMouseDown p (Pan.mkMouse 10 20 Pan.OnCanvas) ready) in
  Pan.scrolled
    (snd (Pan.gestureRun p true
            (Pan.refreshed [Pan.mkMouse 13 18 Pan.Elsewhere;
                            Pan.mkMouse 40 5 Pan.OnCanvas]) v (Pan.capture v)))
  = (-30, 15).
Proof.
  cbv zeta.
  pose proof (drag_scroll_adds_up (Viewer.mkProps (Some fileA) None None hand)
    [Pan.mkMouse 13 18 Pan.Elsewhere; Pan.mkMouse 40 5 Pan.OnCanvas]
    (fst (Pan.handleMouseDown (Viewer.mkProps (Some fileA) None None hand)
            (Pan.mkMouse 10 20 Pan.OnCanvas) ready))
    eq_refl eq_refl) as [H _].
  exact H.
Defined.

(** X13: nothing is scrolled and no state changes while the cursor tool is
    selected, nor, with the hand tool, as long as no mouse button went down
    on the canvas. *)
Theorem no_pan_without_grab (p : Viewer.Props) (c : bool)
    (ms : list Pan.Mouse) (v : Viewer.State) :
  Viewer.isPanning v = false ->
  Pan.listening p = false \/
  Forall (fun m => match m with
                   | Pan.Down e => Pan.onCanvas e v = false
                   | _ => True
                   end) ms ->
  Pan.mouseRun p c ms v = (v, []).
Proof.
  intros Hp Hcase. induction ms as [| m ms IH]; [reflexivity |].
  assert (Hm : Pan.mouse p c m v = (v, [])).
  { destruct Hcase as [Hl | Hall].
    - destruct m; simpl; unfold Pan.handleMouseDown, Pan.handleMouseMove,
        Pan.handleMouseUp; rewrite Hl; reflexivity.
    - apply Forall_cons in Hall as [Hm _].
      destruct m as [e | e |]; simpl; unfold Pan.handleMouseDown,
        Pan.handleMouseMove, Pan.handleMouseUp.
      + rewrite Hm, andb_false_r. reflexivity.
      + rewrite Hp, andb_false_r. reflexivity.
      + destruct (Pan.listening p); [| reflexivity].
        destruct v; simpl in *; subst; reflexivity. }
  simpl. rewrite Hm, IH; [reflexivity |].
  destruct Hcase as [Hl | Hall]; [left; exact Hl | right].
  apply Forall_cons in Hall as [_ Hall]. exact Hall.
Qed.

Lemma no_pan_without_grab_witness :
  Pan.mouseRun (Viewer.mkProps (Some fileA) None None hand) true
    [Pan.Down (Pan.mkMouse 1 1 Pan.Elsewhere);
     Pan.Move (Pan.mkMouse 9 9 Pan.OnCanvas); Pan.Up] ready
  = (ready, []).
Proof.
  apply no_pan_without_grab; [reflexivity |].
  right. repeat constructor.
Defined.

Lemma mouseRun_keeps (p : Viewer.Props) (c : bool) (ms : list Pan.Mouse) :
  forall v,
  pipelineOf (fst (Pan.mouseRun p c ms v)) = pipelineOf v /\
  Viewer.currentPage (fst (Pan.mouseRun p c ms v)) = Viewer.currentPage v /\
  Viewer.scale (fst (Pan.mouseRun p c ms v)) = Viewer.scale v.
Proof.
  induction ms as [| m ms IH]; intros v; simpl; [repeat split |].
  pose proof (mouse_keeps_pipeline p c m v) as (H1 & H2 & H3).
  destruct (Pan.mouse p c m v) as [v1 o1]. simpl in *.
  specialize (IH v1). destruct (Pan.mouseRun p c ms v1) as [v2 o2].
  simpl in *. destruct IH as (I1 & I2 & I3).
  repeat split; congruence.
Qed.

Lemma goTo_keeps_pipeline (p : Viewer.Props) (n : Z) (v : Viewer.State) :
  pipelineOf (fst (Viewer.goTo p n v)) = pipelineOf v.
Proof. unfold Viewer.goTo. destruct (Viewer.externalCurrentPage p); reflexivity. Qed.

(** X14: input never reaches the render pipeline directly: keys, wheel
    events, the wheel timer and mouse gestures leave the document, the
    loading flag, the stored render task, the canvas and the invocations as
    they are; and a mouse gesture changes neither the page nor the scale,
    so panning never asks for a new render. *)
Theorem input_leaves_pipeline (p : Viewer.Props) (kev : Viewer.KeyboardEvent)
    (wev : Viewer.WheelEvent) (c : bool) (ms : list Pan.Mouse)
    (v : Viewer.State) :
  pipelineOf (fst (Viewer.handleKeyDown p kev v)) = pipelineOf v /\
  pipelineOf (fst (Viewer.handleWheel wev v)) = pipelineOf v /\
  pipelineOf (Viewer.wheelTimeoutFired v) = pipelineOf v /\
  pipelineOf (fst (Pan.mouseRun p c ms v)) = pipelineOf v /\
  Viewer.activePage p (fst (Pan.mouseRun p c ms v)) = Viewer.activePage p v /\
  Viewer.activeScaleOf p (fst (Pan.mouseRun p c ms v)) = Viewer.activeScaleOf p v.
Proof.
  pose proof (mouseRun_keeps p c ms v) as (M1 & M2 & M3).
  split; [| split; [| split; [| split; [| split]]]].
  - unfold Viewer.handleKeyDown.
    destruct (Viewer.pdf v) as [doc |] eqn:Hd; [| reflexivity].
    destruct (Viewer.target kev); try reflexivity.
    repeat match goal with
    | |- context [if ?b then _ else _] => destruct b
    | |- context [let '(_, _) := Viewer.goTo ?p ?n ?v in _] =>
        pose proof (goTo_keeps_pipeline p n v);
        destruct (Viewer.goTo p n v) as [v' o]; simpl in *
    end; simpl; try assumption; try reflexivity.
  - unfold Viewer.handleWheel. destruct (Viewer.ctrlKey wev); reflexivity.
  - unfold Viewer.wheelTimeoutFired. destruct (Viewer.wheelTimeout v); reflexivity.
  - exact M1.
  - unfold Viewer.activePage. rewrite M2. reflexivity.
  - unfold Viewer.activeScaleOf. rewrite M3. reflexivity.
Qed.

(** ** The [usePDFNavigation] hook *)

Lemma move_in_range (d : PDFDocumentProxy) (m : Navigation.Move) (cur : Z) :
  1 <= cur <= numPages d ->
  1 <= Navigation.move (Some d) m cur <= numPages d.
Proof.
  intros Hr. destruct m as [page | |]; simpl.
  - destruct (1 <=? page) eqn:E1; destruct (page <=? numPages d) eqn:E2;
      simpl; lia.
  - destruct (cur <? numPages d) eqn:E; lia.
  - unfold Navigation.prevPage. destruct (1 <? cur) eqn:E; lia.
Qed.

(** X15: with a document, any sequence of [goToPage], [nextPage] and
    [prevPage] calls keeps the hook's page within the document's pages. *)
Theorem navigation_stays_in_range (d : PDFDocumentProxy)
    (ms : list Navigation.Move) (cur : Z) :
  1 <= cur <= numPages d ->
  1 <= fold_left (fun c m => Navigation.move (Some d) m c) ms cur <= numPages d.
Proof.
  revert cur. induction ms as [| m ms IH]; intros cur Hr; simpl; [exact Hr |].
  apply IH, move_in_range, Hr.
Qed.

Lemma navigation_stays_in_range_witness :
  1 <= fold_left (fun c m => Navigation.move (Some doc5) m c)
         [Navigation.Next; Navigation.GoTo 9; Navigation.GoTo 5;
          Navigation.Next; Navigation.Prev] 1 <= 5.
Proof. apply (navigation_stays_in_range doc5); simpl; lia. Defined.

(** X16: without a document [goToPage] and [nextPage] do nothing, while
    [prevPage], which does not look at the document, still steps back; so
    the page never grows and never goes below 1, and from the initial page 1
    it stays 1. *)
Theorem navigation_without_document (ms : list Navigation.Move) (cur : Z) :
  1 <= cur ->
  1 <= fold_left (fun c m => Navigation.move None m c) ms cur <= cur /\
  fold_left (fun c m => Navigation.move None m c) ms 1 = 1 /\
  Navigation.totalPages None = 0.
Proof.
  intros Hc.
  assert (H : forall c, 1 <= c ->
            1 <= fold_left (fun c m => Navigation.move None m c) ms c <= c).
  { induction ms as [| m ms IH]; intros c Hc1; simpl; [lia |].
    assert (Hm : 1 <= Navigation.move None m c <= c).
    { destruct m; simpl; try lia.
      unfold Navigation.prevPage. destruct (1 <? c) eqn:E; lia. }
    specialize (IH (Navigation.move None m c) ltac:(lia)). lia. }
  split; [apply H, Hc | split; [| reflexivity]].
  specialize (H 1 ltac:(lia)). lia.
Qed.

Lemma navigation_without_document_witness :
  1 <= fold_left (fun c m => Navigation.move None m c)
         [Navigation.Next; Navigation.GoTo 2; Navigation.Prev] 3 <= 3.
Proof.
  apply (navigation_without_document
           [Navigation.Next; Navigation.GoTo 2; Navigation.Prev] 3).
  lia.
Defined.

(** X17: in the hook, [nextPage] and [prevPage] undo each other wherever
    the first of the two moves: next then previous from a page before the
    last, previous then next from a page after the first. *)
Theorem navigation_next_prev_round_trip (d : PDFDocumentProxy) (cur : Z) :
  1 <= cur <= numPages d ->
  (cur < numPages d ->
   Navigation.prevPage (Navigation.nextPage (Some d) cur) = cur) /\
  (1 < cur ->
   Navigation.nextPage (Some d) (Navigation.prevPage cur) = cur).
Proof.
  intros Hr. unfold Navigation.prevPage, Navigation.nextPage. split; intros H.
  - destruct (cur <? numPages d) eqn:E; [| lia].
    destruct (1 <? cur + 1) eqn:E2; lia.
  - destruct (1 <? cur) eqn:E; [| lia].
    destruct (cur - 1 <? numPages d) eqn:E2; lia.
Qed.

Lemma navigation_next_prev_round_trip_witness :
  Navigation.prevPage (Navigation.nextPage (Some doc5) 2) = 2.
Proof.
  apply (navigation_next_prev_round_trip doc5 2); simpl; lia.
Defined.

(** ** The sidebar's outline *)

Lemma pages_spec (n page : Z) : In page (Sidebar.pages n) <-> 1 <= page <= n.
Proof.
  unfold Sidebar.pages. rewrite in_map_iff. split.
  - intros [i [<- Hi]]. apply in_seq in Hi. lia.
  - intros Hr. exists (Z.to_nat (page - 1)). split; [lia |].
    apply in_seq. lia.
Qed.

Lemma pages_NoDup (n : Z) : List.NoDup (Sidebar.pages n).
Proof.
  unfold Sidebar.pages. apply Finite.Injective_map_NoDup.
  - intros i j H. lia.
  - apply seq_NoDup.
Qed.

(** X18: the outline lists exactly the pages 1 to [totalPages], each once
    and in order: entry [i] (from 0) is page [i + 1]; the list is empty for
    a page count of 0 or less. *)
Theorem outline_lists_every_page_once (n : Z) :
  (forall page, In page (Sidebar.pages n) <-> 1 <= page <= n) /\
  List.NoDup (Sidebar.pages n) /\
  length (Sidebar.pages n) = Z.to_nat n /\
  (forall i, (i < Z.to_nat n)%nat ->
     Sidebar.pages n !! i = Some (Z.of_nat i + 1)).
Proof.
  split; [intros page; apply pages_spec |].
  split; [apply pages_NoDup |].
  unfold Sidebar.pages. split.
  - rewrite length_map, length_seq. reflexivity.
  - intros i Hi. rewrite list_lookup_fmap, lookup_seq_lt by exact Hi.
    reflexivity.
Qed.

(** X19: a click on any entry of the outline makes that entry's page the
    current page and closes the sidebar, leaving the rest of [App]'s state
    as it was. *)
Theorem outline_click_selects_page (page : Z) (a : App.State) :
  In page (Sidebar.pages (App.totalPages a)) ->
  clickEntry page a = App.setSidebarOpen false (App.setCurrentPage page a).
Proof.
  intros Hin. apply pages_spec in Hin. unfold clickEntry.
  destruct (handlePageChange_spec page a) as [[_ ->] | [Hout _]];
    [reflexivity | contradiction].
Qed.

Lemma outline_click_selects_page_witness :
  App.currentPage (clickEntry 4 (App.handleToggleSidebar (fst loaded))) = 4 /\
  App.sidebarOpen (clickEntry 4 (App.handleToggleSidebar (fst loaded))) = false.
Proof.
  rewrite (outline_click_selects_page 4 (App.handleToggleSidebar (fst loaded))).
  - split; reflexivity.
  - vm_compute. tauto.
Defined.

Lemma filter_isCurrent_absent (x : Z) (l : list Z) :
  ~ In x l -> List.filter (Sidebar.isCurrent x) l = [].
Proof.
  unfold Sidebar.isCurrent. induction l as [| y l IH]; intros Hn; simpl;
    [reflexivity |].
  destruct (y =? x) eqn:E.
  - apply Z.eqb_eq in E. exfalso. apply Hn. left. exact E.
  - apply IH. intros H. apply Hn. right. exact H.
Qed.

Lemma filter_isCurrent_present (x : Z) (l : list Z) :
  List.NoDup l -> In x l ->
  length (List.filter (Sidebar.isCurrent x) l) = 1%nat.
Proof.
  induction 1 as [| y l Hy Hnd IH]; intros Hin; [destruct Hin |].
  simpl. unfold Sidebar.isCurrent at 1. destruct (y =? x) eqn:E.
  - apply Z.eqb_eq in E. subst y.
    rewrite (filter_isCurrent_absent x l Hy). reflexivity.
  - apply Z.eqb_neq in E. destruct Hin as [H | H]; [congruence |].
    apply IH, H.
Qed.

(** X20: in any state of [App], exactly one entry of the outline is
    shown as the current page when the current page is within 1 and the page
    count, and none is when it is not. *)
Theorem outline_marks_one_current (a : App.State) :
  (pageInRange a ->
   length (List.filter (Sidebar.isCurrent (App.currentPage a))
             (Sidebar.pages (App.totalPages a))) = 1%nat) /\
  (~ pageInRange a ->
   List.filter (Sidebar.isCurrent (App.currentPage a))
     (Sidebar.pages (App.totalPages a)) = []).
Proof.
  split; intros Hr.
  - apply filter_isCurrent_present; [apply pages_NoDup |].
    apply pages_spec. exact Hr.
  - apply filter_isCurrent_absent. intros Hin. apply Hr.
    apply pages_spec in Hin. exact Hin.
Qed.

Lemma outline_marks_one_current_witness :
  let late := app (happenAll overtakenLoad mounted5) in
  length (List.filter (Sidebar.isCurrent (App.currentPage (fst loaded)))
            (Sidebar.pages (App.totalPages (fst loaded)))) = 1%nat /\
  List.filter (Sidebar.isCurrent (App.currentPage late))
    (Sidebar.pages (App.totalPages late)) = [].
Proof.
  cbv zeta. split.
  - apply (outline_marks_one_current (fst loaded)).
    vm_compute. split; discriminate.
  - apply (outline_marks_one_current (app (happenAll overtakenLoad mounted5))).
    vm_compute. intros [_ H]. apply H. reflexivity.
Defined.

(** ** The render pipeline: accounting *)

Section RenderAccounting.

Import Viewer.

Lemma filter_length_alter {A : Type} (f : A -> bool) (g : A -> A)
    (l : list A) (i : nat) (c : A) :
  l !! i = Some c ->
  (length (List.filter f (alter g i l)) + (if f c then 1 else 0)
   = length (List.filter f l) + (if f (g c) then 1 else 0))%nat.
Proof.
  revert i. induction l as [| x l IH]; intros i Hl; [discriminate Hl |].
  destruct i as [| i].
  - simpl in *. injection Hl as ->. destruct (f c), (f (g c)); simpl; lia.
  - specialize (IH i Hl).
    change (alter g (S i) (x :: l)) with (x :: alter g i l).
    cbn [List.filter]. destruct (f x), (f c), (f (g c)); cbn [length] in *; lia.
Qed.

Lemma alter_missing {A : Type} (g : A -> A) (l : list A) (i : nat) :
  l !! i = None -> alter g i l = l.
Proof.
  revert i. induction l as [| x l IH]; intros i Hl; [reflexivity |].
  destruct i as [| i]; [discriminate Hl |].
  change (alter g (S i) (x :: l)) with (x :: alter g i l).
  rewrite (IH i Hl). reflexivity.
Qed.

Lemma settledCount_settle (id : nat) (c : RenderCall) (v v' : State) :
  calls v !! id = Some c ->
  stage c <> Settled ->
  calls v' = alter (setStage Settled) id (calls v) ->
  settledCount v' = S (settledCount v).
Proof.
  intros Hc Hs Hcalls. unfold settledCount. rewrite Hcalls.
  pose proof (filter_length_alter hasReturned (setStage Settled) _ _ _ Hc) as H.
  assert (E1 : hasReturned (setStage Settled c) = true) by reflexivity.
  assert (E2 : hasReturned c = false)
    by (unfold hasReturned; destruct (stage c); congruence).
  rewrite E1, E2 in H. lia.
Qed.

Lemma catchRender_events (e : Thrown) :
  pageCommits (catchRender e) = [] /\
  (length (errorEvents (catchRender e)) <= 1)%nat.
Proof.
  destruct e as [n m |]; simpl; [| split; [reflexivity | lia]].
  destruct (negb (String.eqb n "RenderingCancelledException")); simpl;
    split; try reflexivity; lia.
Qed.

(** One step: the callbacks emitted are paid for by invocations that
    return in that step, and the number of invocations grows by at most the
    one request. *)
Lemma step_accounting (ev : Event) (v : State) :
  (length (pageCommits (snd (step ev v))) + length (errorEvents (snd (step ev v)))
   + settledCount v <= settledCount (fst (step ev v)))%nat /\
  (length (calls (fst (step ev v)))
   <= length (calls v) + (if isRequest ev then 1 else 0))%nat.
Proof.
  destruct ev as [n sc | id | id e | id | id e | b]; simpl.
  - unfold renderEffectAt. destruct (pdf v); [| simpl; lia].
    destruct (canvasRef v); [| simpl; lia].
    unfold renderPage. simpl.
    destruct (renderTaskRef v) as [t |]; simpl; unfold settledCount; simpl;
      rewrite List.filter_app, !length_app; simpl.
    + split; [| rewrite length_alter; lia].
      destruct (calls v !! t) as [c |] eqn:Hc.
      * pose proof (filter_length_alter hasReturned markCancelled _ _ _ Hc) as H.
        assert (E : hasReturned (markCancelled c) = hasReturned c) by reflexivity.
        rewrite E in H. lia.
      * rewrite (alter_missing _ _ _ Hc). lia.
    + lia.
  - unfold getPageResolved.
    destruct (calls v !! id) as [c |] eqn:Hc; [| simpl; lia].
    destruct (stage c) eqn:Hs; try (simpl; lia).
    destruct (canvasRef v); simpl.
    + unfold settledCount. simpl. rewrite length_alter. split; [| lia].
      pose proof (filter_length_alter hasReturned (setStage AwaitRaster) _ _ _ Hc) as H.
      assert (E1 : hasReturned (setStage AwaitRaster c) = false) by reflexivity.
      assert (E2 : hasReturned c = false)
        by (unfold hasReturned; rewrite Hs; reflexivity).
      rewrite E1, E2 in H. lia.
    + rewrite length_alter. split; [| lia].
      rewrite (settledCount_settle id c v (setLoading false (settle id v)) Hc)
        by (simpl; first [reflexivity | congruence]).
      lia.
  - unfold getPageRejected.
    destruct (calls v !! id) as [c |] eqn:Hc; [| simpl; lia].
    destruct (stage c) eqn:Hs; try (simpl; lia). simpl.
    rewrite length_alter. split; [| lia].
    rewrite (settledCount_settle id c v (setLoading false (settle id v)) Hc)
      by (simpl; first [reflexivity | congruence]).
    destruct (catchRender_events e) as [-> H]. simpl. lia.
  - unfold rasterResolved.
    destruct (calls v !! id) as [c |] eqn:Hc; [| simpl; lia].
    destruct (stage c) eqn:Hs; try (simpl; lia). simpl.
    rewrite length_alter. split; [| lia].
    rewrite (settledCount_settle id c v
               (setLoading false (setRenderTaskRef None (settle id v))) Hc)
      by (simpl; first [reflexivity | congruence]).
    lia.
  - unfold rasterRejected.
    destruct (calls v !! id) as [c |] eqn:Hc; [| simpl; lia].
    destruct (stage c) eqn:Hs; try (simpl; lia). simpl.
    rewrite length_alter. split; [| lia].
    rewrite (settledCount_settle id c v (setLoading false (settle id v)) Hc)
      by (simpl; first [reflexivity | congruence]).
    destruct (catchRender_events e) as [-> H]. simpl. lia.
  - unfold settledCount. simpl. lia.
Qed.

Lemma run_accounting (evs : list Event) :
  forall v,
  (length (pageCommits (snd (run evs v))) + length (errorEvents (snd (run evs v)))
   + settledCount v <= settledCount (fst (run evs v)))%nat /\
  (length (calls (fst (run evs v)))
   <= length (calls v) + length (List.filter isRequest evs))%nat.
Proof.
  induction evs as [| ev evs IH]; intros v; simpl; [lia |].
  pose proof (step_accounting ev v) as [S1 S2].
  destruct (step ev v) as [v1 o1]. simpl in *.
  specialize (IH v1). destruct (run evs v1) as [v2 o2]. simpl in *.
  destruct IH as [I1 I2].
  unfold pageCommits, errorEvents in *. rewrite !omap_app, !length_app.
  split; [lia |]. destruct (isRequest ev); simpl; lia.
Qed.

Lemma settledCount_le_calls (v : State) : (settledCount v <= length (calls v))%nat.
Proof. unfold settledCount. apply List.filter_length_le. Qed.

(** X21: whatever the backend does and in whatever order, the viewer calls
    back at most once per render request: the page-committed and error
    callbacks together never outnumber the invocations of [renderPage] that
    have returned, nor the requests made. *)
Theorem at_most_one_callback_per_request (evs : list Event) (v : State) :
  calls v = [] ->
  (length (pageCommits (snd (run evs v))) + length (errorEvents (snd (run evs v)))
   <= settledCount (fst (run evs v)))%nat /\
  (settledCount (fst (run evs v)) <= length (calls (fst (run evs v))))%nat /\
  (length (calls (fst (run evs v))) <= length (List.filter isRequest evs))%nat.
Proof.
  intros Hfresh. pose proof (run_accounting evs v) as [H1 H2].
  assert (H0 : settledCount v = 0%nat) by (unfold settledCount; rewrite Hfresh; reflexivity).
  rewrite Hfresh in H2. simpl in H2.
  split; [lia | split; [apply settledCount_le_calls | exact H2]].
Qed.

Lemma at_most_one_callback_per_request_witness :
  let evs := [Request 1 1.2%Q; Request 3 1.2%Q;
              GetPageResolved 0; GetPageResolved 1;
              RasterResolved 1; RasterResolved 0; RasterResolved 0;
              RasterRejected 1 (ErrorObj "Error" "late")] in
  (length (pageCommits (snd (run evs ready)))
   + length (errorEvents (snd (run evs ready))) <= 2)%nat.
Proof.
  cbv zeta.
  pose proof (at_most_one_callback_per_request
    [Request 1 1.2%Q; Request 3 1.2%Q;
     GetPageResolved 0; GetPageResolved 1;
     RasterResolved 1; RasterResolved 0; RasterResolved 0;
     RasterRejected 1 (ErrorObj "Error" "late")] ready eq_refl) as (H1 & H2 & H3).
  eapply Nat.le_trans; [exact H1 |].
  eapply Nat.le_trans; [exact H2 |].
  eapply Nat.le_trans; [exact H3 |].
  simpl. lia.
Defined.

Lemma disciplined_run_preserves (evs : list Event) :
  forall v, pipelineOwnedByLatest v ->
  disciplined evs v = true -> pipelineOwnedByLatest (fst (run evs v)).
Proof.
  induction evs as [| ev evs IH]; intros v Hinv Hd; [exact Hinv |].
  simpl in Hd. apply andb_true_iff in Hd as [Hper Hd].
  pose proof (permitted_step_preserves ev v Hinv Hper) as H1.
  simpl. destruct (step ev v) as [v1 o1]. simpl in *.
  specialize (IH v1 H1 Hd). destruct (run evs v1) as [v2 o2]. exact IH.
Qed.

(** X22: when the backend honours cancellation and no request overtakes
    an earlier one waiting for [pdf.getPage], at most one render is live at
    any time (not returned and not cancelled), it is the latest request, and
    the unmount cleanup cancels its raster if it has started one. *)
Theorem at_most_one_live_render (evs : list Event) (v : State) :
  calls v = [] ->
  disciplined evs v = true ->
  let v' := fst (run evs v) in
  forall i ci, calls v' !! i = Some ci -> live ci ->
    isLatest i v' = true /\
    (forall j cj, calls v' !! j = Some cj -> live cj -> j = i) /\
    (stage ci = AwaitRaster -> unmountCleanup v' = [CancelTask i]).
Proof.
  intros Hfresh Hd. cbv zeta.
  pose proof (disciplined_run_preserves evs v (owned_when_fresh v Hfresh) Hd)
    as Hinv.
  assert (Hlive : forall k ck, calls (fst (run evs v)) !! k = Some ck ->
            live ck -> isLatest k (fst (run evs v)) = true).
  { intros k ck Hk [Hs Hc]. specialize (Hinv k ck Hk).
    destruct (stage ck); [exact Hinv | apply Hinv, Hc | contradiction]. }
  intros i ci Hi Hli. split; [apply (Hlive i ci Hi Hli) |]. split.
  - intros j cj Hj Hlj.
    apply (isLatest_unique _ _ _ (Hlive j cj Hj Hlj) (Hlive i ci Hi Hli)).
  - intros Hs. specialize (Hinv i ci Hi). rewrite Hs in Hinv.
    destruct Hli as [_ Hc]. destruct (Hinv Hc) as [_ Hr].
    unfold unmountCleanup. rewrite Hr. reflexivity.
Qed.

Lemma at_most_one_live_render_witness :
  let v' := fst (run [Request 1 1.2%Q; GetPageResolved 0; Request 3 1.2%Q;
                      GetPageResolved 1] ready) in
  isLatest 1 v' = true /\ unmountCleanup v' = [CancelTask 1].
Proof.
  cbv zeta.
  pose proof (at_most_one_live_render
    [Request 1 1.2%Q; GetPageResolved 0; Request 3 1.2%Q; GetPageResolved 1]
    ready eq_refl eq_refl 1%nat (mkCall 3 1.2%Q AwaitRaster false) eq_refl) as H.
  assert (Hl : live (mkCall 3 1.2%Q AwaitRaster false))
    by (split; [discriminate | reflexivity]).
  destruct (H Hl) as (H1 & _ & H3). split; [exact H1 | apply H3; reflexivity].
Defined.

End RenderAccounting.

(** ** Arrow keys, end to end *)




(** ** The toolbar's page field *)

Section PageField.

Import Toolbar.

Lemma digitsValue_uint_acc (d : Decimal.uint) :
  forall p, digitsValue (Z.pos p) (NilEmpty.string_of_uint d)
            = Z.pos (Pos.of_uint_acc d p).
Proof.
  induction d as [| d IH | d IH | d IH | d IH | d IH | d IH | d IH | d IH
                  | d IH | d IH]; intros p; [reflexivity | ..];
    cbn [NilEmpty.string_of_uint digitsValue Pos.of_uint_acc];
    match goal with
    | |- context [digitValue ?c] =>
        let r := eval vm_compute in (digitValue c) in
        change (digitValue c) with r
    end; cbv iota; rewrite <- IH; f_equal; lia.
Qed.

Lemma digitsValue_uint (d : Decimal.uint) :
  digitsValue 0 (NilEmpty.string_of_uint d) = Z.of_N (Pos.of_uint d).
Proof.
  induction d as [| d IH | d IH | d IH | d IH | d IH | d IH | d IH | d IH
                  | d IH | d IH]; [reflexivity | ..];
    cbn [NilEmpty.string_of_uint digitsValue Pos.of_uint];
    match goal with
    | |- context [digitValue ?c] =>
        let r := eval vm_compute in (digitValue c) in
        change (digitValue c) with r
    end; cbv iota;
    [exact IH | apply (digitsValue_uint_acc d) ..].
Qed.

(** The decimal digits of a positive number, read by [parseInt]'s steps. *)
Lemma parse_positive_digits (p : positive) :
  let s := NilEmpty.string_of_uint (Pos.to_uint p) in
  trimStart s = s /\
  startsWithDigit s = true /\
  digitsValue 0 s = Z.pos p /\
  match s with
  | String c _ => Ascii.eqb c "-" = false /\ Ascii.eqb c "+" = false
  | EmptyString => False
  end.
Proof.
  cbv zeta. rewrite digitsValue_uint, DecimalPos.Unsigned.of_to.
  pose proof (DecimalPos.Unsigned.to_uint_nonnil p) as Hn.
  destruct (Pos.to_uint p); [contradiction | ..];
    repeat split; reflexivity.
Qed.

Lemma parseInt_toString_pos (p : positive) :
  parseInt (toString (Z.pos p)) = Some (Z.pos p).
Proof.
  unfold toString. simpl.
  pose proof (DecimalPos.Unsigned.to_uint_nonnil p) as Hn.
  destruct (parse_positive_digits p) as (Ht & Hs & Hv & Hc).
  cbv zeta in *. unfold NilZero.string_of_uint.
  destruct (Pos.to_uint p) eqn:Ed; [contradiction | ..];
    unfold parseInt; rewrite Ht;
    match goal with
    | |- context [NilEmpty.string_of_uint ?d] =>
        destruct (NilEmpty.string_of_uint d) eqn:Es; [contradiction |];
        destruct Hc as [-> ->]; rewrite Hs, Hv; f_equal
    end.
Qed.

Lemma parseInt_toString_neg (p : positive) :
  parseInt (toString (Z.neg p)) = Some (Z.neg p).
Proof.
  unfold toString. simpl.
  pose proof (DecimalPos.Unsigned.to_uint_nonnil p) as Hn.
  destruct (parse_positive_digits p) as (Ht & Hs & Hv & Hc).
  cbv zeta in *. unfold NilZero.string_of_uint.
  destruct (Pos.to_uint p) eqn:Ed; [contradiction | ..];
    unfold parseInt; cbn [trimStart];
    change (isWhiteSpace "-") with false; cbv iota;
    change (Ascii.eqb "-" "-") with true; cbv iota;
    rewrite Hs, Hv; reflexivity.
Qed.

(** In the model, where numbers are exact integers and [toString] writes
    every digit, [parseInt] reads back what [toString] writes. *)
Lemma parseInt_toString (z : Z) : parseInt (toString z) = Some z.
Proof.
  destruct z as [| p | p];
    [reflexivity | apply parseInt_toString_pos | apply parseInt_toString_neg].
Qed.

End PageField.

(** [parseInt] on some texts: a fraction is cut, a unit is dropped, text
    without a leading digit is not a number. *)
Example parseInt_samples :
  Toolbar.parseInt "3.7" = Some 3 /\
  Toolbar.parseInt "  42px" = Some 42 /\
  Toolbar.parseInt "-5" = Some (-5) /\
  Toolbar.parseInt "+8" = Some 8 /\
  Toolbar.parseInt "1e2" = Some 1 /\
  Toolbar.parseInt "" = None /\
  Toolbar.parseInt ".5" = None /\
  Toolbar.parseInt "abc" = None /\
  Toolbar.toString (-120) = "-120"%string /\
  Toolbar.toString 0 = "0"%string.
Proof. repeat split. Qed.

(** X25: with the current page within the document, typing the decimal
    text of a page of the document into the toolbar's page field makes that
    page the current one; whatever else is typed, the current page stays
    within the document and the page count is unchanged, and a text that is
    not a number changes nothing. *)
Theorem typed_page_is_selected (value : string) (n : Z) (a : App.State) :
  pageInRange a ->
  (1 <= n <= App.totalPages a ->
   typePage (Toolbar.toString n) a = App.setCurrentPage n a) /\
  pageInRange (typePage value a) /\
  App.totalPages (typePage value a) = App.totalPages a /\
  (Toolbar.parseInt value = None -> typePage value a = a).
Proof.
  intros Hr. unfold typePage, Toolbar.handlePageInputChange. simpl.
  split; [| split; [| split]].
  - intros Hn. rewrite parseInt_toString.
    destruct (1 <=? n) eqn:E1; [| lia].
    destruct (n <=? App.totalPages a) eqn:E2; [| lia]. simpl.
    destruct (handlePageChange_spec n a) as [[_ ->] | [Hout _]];
      [reflexivity | contradiction].
  - destruct (Toolbar.parseInt value) as [page |]; [| exact Hr].
    destruct ((1 <=? page) && (page <=? App.totalPages a)); [| exact Hr].
    apply handlePageChange_range, Hr.
  - destruct (Toolbar.parseInt value) as [page |]; [| reflexivity].
    destruct ((1 <=? page) && (page <=? App.totalPages a)); [| reflexivity].
    apply handlePageChange_range, Hr.
  - intros ->. reflexivity.
Qed.

Lemma typed_page_is_selected_witness :
  App.currentPage (typePage "4" (fst loaded)) = 4 /\
  typePage "four" (fst loaded) = fst loaded.
Proof.
  assert (Hr : pageInRange (fst loaded)) by (vm_compute; split; discriminate).
  pose proof (typed_page_is_selected "four" 4 (fst loaded) Hr) as (H1 & _ & _ & H4).
  split.
  - change "4"%string with (Toolbar.toString 4). rewrite H1; [reflexivity |].
    vm_compute. split; discriminate.
  - apply H4. reflexivity.
Defined.

(** X26: when the page field loses the focus with the current page within
    the document, the text left in the field always reads as a page of the
    document: a text that already does is kept, any other is replaced by
    the current page's number. *)
Theorem blur_leaves_a_valid_page (value : string) (p : Toolbar.Props) :
  1 <= Toolbar.currentPage p <= Toolbar.totalPages p ->
  let shown := Toolbar.handlePageInputBlur value p in
  (exists page, Toolbar.parseInt shown = Some page /\
                1 <= page <= Toolbar.totalPages p) /\
  (Toolbar.handlePageInputChange value p <> None -> shown = value) /\
  (Toolbar.handlePageInputChange value p = None ->
   shown = Toolbar.toString (Toolbar.currentPage p)).
Proof.
  intros Hr. cbv zeta.
  unfold Toolbar.handlePageInputBlur, Toolbar.handlePageInputChange.
  destruct (Toolbar.parseInt value) as [page |] eqn:Ep.
  - destruct (page <? 1) eqn:E1; destruct (Toolbar.totalPages p <? page) eqn:E2;
      destruct (1 <=? page) eqn:E3; destruct (page <=? Toolbar.totalPages p) eqn:E4;
      try lia; simpl; split;
      try (exists (Toolbar.currentPage p); split;
           [apply parseInt_toString | exact Hr]);
      try (exists page; split; [exact Ep | lia]);
      split; intros H; try reflexivity; try discriminate H; contradiction.
  - split; [| split; [intros H; contradiction | reflexivity]].
    exists (Toolbar.currentPage p). split;
      [apply parseInt_toString | exact Hr].
Qed.

Lemma blur_leaves_a_valid_page_witness :
  Toolbar.handlePageInputBlur "99" (toolbarProps (fst loaded)) = "1"%string /\
  Toolbar.handlePageInputBlur "3.7" (toolbarProps (fst loaded)) = "3.7"%string.
Proof.
  assert (Hr : 1 <= Toolbar.currentPage (toolbarProps (fst loaded))
               <= Toolbar.totalPages (toolbarProps (fst loaded)))
    by (vm_compute; split; discriminate).
  pose proof (blur_leaves_a_valid_page "99" (toolbarProps (fst loaded)) Hr)
    as (_ & _ & H3).
  pose proof (blur_leaves_a_valid_page "3.7" (toolbarProps (fst loaded)) Hr)
    as (_ & H2 & _).
  split; [apply H3; reflexivity | apply H2; discriminate].
Defined.

(** ** The render pipeline: cancellation *)

Section Cancellation.

Import Viewer.

Lemma lookup_alter_inv {A : Type} (f : A -> A) (l : list A) (i j : nat) (c' : A) :
  alter f i l !! j = Some c' ->
  exists c, l !! j = Some c /\ ((i <> j /\ c' = c) \/ (i = j /\ c' = f c)).
Proof.
  rewrite list_lookup_alter. destruct (decide (i = j)) as [<- | Hne].
  - destruct (l !! i) as [c |]; [| discriminate].
    intros [= <-]. exists c. split; [reflexivity | right; split; reflexivity].
  - intros H. exists c'. split; [exact H | left; split; [exact Hne | reflexivity]].
Qed.

Lemma wasCancelled_alter (f : RenderCall -> RenderCall) (t i : nat)
    (v v' : State) (extra : list RenderCall) :
  (forall c, cancelRequested c = true -> cancelRequested (f c) = true) ->
  calls v' = alter f i (calls v) ++ extra ->
  wasCancelled t v -> wasCancelled t v'.
Proof.
  intros Hf Hcalls (c & Hc & Hcr). unfold wasCancelled. rewrite Hcalls.
  destruct (decide (i = t)) as [<- | Hne].
  - exists (f c). split; [| apply Hf, Hcr].
    apply lookup_app_l_Some. rewrite list_lookup_alter_eq, Hc. reflexivity.
  - exists c. split; [| exact Hcr].
    apply lookup_app_l_Some. rewrite list_lookup_alter_ne by exact Hne. exact Hc.
Qed.

(** A task once cancelled stays cancelled. *)
Lemma step_keeps_cancelled (ev : Event) (t : nat) (v : State) :
  wasCancelled t v -> wasCancelled t (fst (step ev v)).
Proof.
  intros Hw.
  assert (Hstage : forall s id v',
            calls v' = alter (setStage s) id (calls v) -> wasCancelled t v').
  { intros s id v' Hc. apply (wasCancelled_alter (setStage s) t id v v' []);
      [auto | rewrite app_nil_r; exact Hc | exact Hw]. }
  destruct ev as [n sc | id | id e | id | id e | b]; simpl.
  - unfold renderEffectAt. destruct (pdf v); [| exact Hw].
    destruct (canvasRef v); [| exact Hw]. unfold renderPage. simpl.
    destruct (renderTaskRef v) as [t0 |]; simpl.
    + eapply (wasCancelled_alter markCancelled t t0 v); [auto | reflexivity | exact Hw].
    + destruct Hw as (c & Hc & Hcr). exists c. split; [| exact Hcr].
      simpl. apply lookup_app_l_Some, Hc.
  - unfold getPageResolved. destruct (calls v !! id) as [c |]; [| exact Hw].
    destruct (stage c); try exact Hw.
    destruct (canvasRef v); simpl; eapply Hstage; reflexivity.
  - unfold getPageRejected. destruct (calls v !! id) as [c |]; [| exact Hw].
    destruct (stage c); try exact Hw. simpl. eapply Hstage; reflexivity.
  - unfold rasterResolved. destruct (calls v !! id) as [c |]; [| exact Hw].
    destruct (stage c); try exact Hw. simpl. eapply Hstage; reflexivity.
  - unfold rasterRejected. destruct (calls v !! id) as [c |]; [| exact Hw].
    destruct (stage c); try exact Hw. simpl. eapply Hstage; reflexivity.
  - exact Hw.
Qed.

(** Moving one invocation to a later stage keeps the stored task sound,
    if the stored task is kept, dropped, or becomes that invocation's as it
    leaves [pdf.getPage]. *)
Lemma sound_after_restage (s : Stage) (id : nat) (v v' : State) :
  s <> AwaitGetPage ->
  storedTaskSound v ->
  calls v' = alter (setStage s) id (calls v) ->
  renderTaskRef v' = renderTaskRef v \/ renderTaskRef v' = None \/
  (renderTaskRef v' = Some id /\
   exists c, calls v !! id = Some c /\ stage c = AwaitGetPage) ->
  storedTaskSound v'.
Proof.
  intros Hs [Ha Hb] Hcalls Href. split.
  - intros j c' Hj Hst. rewrite Hcalls in Hj.
    apply lookup_alter_inv in Hj as (c & Hc & [[_ ->] | [_ ->]]).
    + apply (Ha j c Hc Hst).
    + simpl in Hst. contradiction.
  - intros t Ht.
    assert (Hkeep : forall c, calls v !! t = Some c ->
              cancelRequested c = false -> stage c <> AwaitGetPage ->
              exists c', calls v' !! t = Some c' /\
                         cancelRequested c' = false /\ stage c' <> AwaitGetPage).
    { intros c Hc Hcr Hsc. rewrite Hcalls.
      destruct (decide (id = t)) as [<- | Hne].
      - exists (setStage s c). rewrite list_lookup_alter_eq, Hc. auto.
      - exists c. rewrite list_lookup_alter_ne by exact Hne. auto. }
    destruct Href as [Hr | [Hr | [Hr (c & Hc & Hsc)]]].
    + rewrite Hr in Ht. destruct (Hb t Ht) as (c & Hc & Hcr & Hsc).
      apply (Hkeep c Hc Hcr Hsc).
    + congruence.
    + rewrite Hr in Ht. injection Ht as <-.
      exists (setStage s c). rewrite Hcalls, list_lookup_alter_eq, Hc.
      split; [reflexivity |]. split; [apply (Ha id c Hc Hsc) | exact Hs].
Qed.

Lemma step_keeps_sound (ev : Event) (v : State) :
  storedTaskSound v -> storedTaskSound (fst (step ev v)).
Proof.
  intros Hsound.
  destruct ev as [n sc | id | id e | id | id e | b]; simpl.
  - unfold renderEffectAt. destruct (pdf v); [| exact Hsound].
    destruct (canvasRef v); [| exact Hsound]. unfold renderPage. simpl.
    destruct Hsound as [Ha Hb].
    destruct (renderTaskRef v) as [t |] eqn:Ht; simpl; (split; [| intros ? H; simpl in H; rewrite ?Ht in H; discriminate H]);
      intros j c' Hj Hst; simpl in Hj; apply lookup_snoc_Some in Hj;
      destruct Hj as [[_ Hj] | [_ <-]]; try reflexivity.
    + apply lookup_alter_inv in Hj as (c & Hc & [[_ ->] | [<- ->]]).
      * apply (Ha j c Hc Hst).
      * destruct (Hb t eq_refl) as (c0 & Hc0 & _ & Hs0).
        rewrite Hc in Hc0. injection Hc0 as <-. simpl in Hst. contradiction.
    + apply (Ha j c' Hj Hst).
  - unfold getPageResolved. destruct (calls v !! id) as [c |] eqn:Hc; [| exact Hsound].
    destruct (stage c) eqn:Hs; try exact Hsound.
    destruct (canvasRef v); simpl.
    + apply (sound_after_restage AwaitRaster id v); [discriminate | exact Hsound | reflexivity |].
      right. right. split; [reflexivity | exists c; auto].
    + apply (sound_after_restage Settled id v); [discriminate | exact Hsound | reflexivity |].
      left. reflexivity.
  - unfold getPageRejected. destruct (calls v !! id) as [c |] eqn:Hc; [| exact Hsound].
    destruct (stage c) eqn:Hs; try exact Hsound. simpl.
    apply (sound_after_restage Settled id v); [discriminate | exact Hsound | reflexivity |].
    left. reflexivity.
  - unfold rasterResolved. destruct (calls v !! id) as [c |] eqn:Hc; [| exact Hsound].
    destruct (stage c) eqn:Hs; try exact Hsound. simpl.
    apply (sound_after_restage Settled id v); [discriminate | exact Hsound | reflexivity |].
    right. left. reflexivity.
  - unfold rasterRejected. destruct (calls v !! id) as [c |] eqn:Hc; [| exact Hsound].
    destruct (stage c) eqn:Hs; try exact Hsound. simpl.
    apply (sound_after_restage Settled id v); [discriminate | exact Hsound | reflexivity |].
    left. reflexivity.
  - exact Hsound.
Qed.

Lemma catchRender_cancels (e : Thrown) : cancels (catchRender e) = [].
Proof.
  destruct e as [n m |]; simpl; [| reflexivity].
  destruct (negb (String.eqb n "RenderingCancelledException")); reflexivity.
Qed.

(** A step calls [cancel()] at most once, on a task that got past
    [pdf.getPage] and was not cancelled before, and marks it cancelled. *)
Lemma step_cancels (ev : Event) (t : nat) (v : State) :
  storedTaskSound v ->
  In t (cancels (snd (step ev v))) ->
  cancels (snd (step ev v)) = [t] /\
  ~ wasCancelled t v /\
  (exists c, calls v !! t = Some c /\ stage c <> AwaitGetPage) /\
  wasCancelled t (fst (step ev v)).
Proof.
  intros [Ha Hb] Hin.
  destruct ev as [n sc | id | id e | id | id e | b]; simpl in *.
  - unfold renderEffectAt in *. destruct (pdf v); [| destruct Hin].
    destruct (canvasRef v); [| destruct Hin]. unfold renderPage in *. simpl in *.
    destruct (renderTaskRef v) as [t0 |] eqn:Ht; simpl in *; [| destruct Hin].
    destruct Hin as [<- | []].
    destruct (Hb t0 eq_refl) as (c & Hc & Hcr & Hs).
    split; [reflexivity |]. split; [| split].
    + intros (c' & Hc' & Hcr'). congruence.
    + exists c. auto.
    + exists (markCancelled c). split; [| reflexivity].
      apply lookup_app_l_Some. rewrite list_lookup_alter_eq, Hc. reflexivity.
  - unfold getPageResolved in *. destruct (calls v !! id) as [c |]; [| destruct Hin].
    destruct (stage c); try destruct Hin.
    destruct (canvasRef v); simpl in Hin; destruct Hin.
  - unfold getPageRejected in *. destruct (calls v !! id) as [c |]; [| destruct Hin].
    destruct (stage c); try destruct Hin. simpl in Hin.
    rewrite catchRender_cancels in Hin. destruct Hin.
  - unfold rasterResolved in *. destruct (calls v !! id) as [c |]; [| destruct Hin].
    destruct (stage c); destruct Hin.
  - unfold rasterRejected in *. destruct (calls v !! id) as [c |]; [| destruct Hin].
    destruct (stage c); try destruct Hin. simpl in Hin.
    rewrite catchRender_cancels in Hin. destruct Hin.
  - destruct Hin.
Qed.

Lemma run_keeps_cancelled (evs : list Event) :
  forall t v, wasCancelled t v -> wasCancelled t (fst (run evs v)).
Proof.
  induction evs as [| ev evs IH]; intros t v Hw; [exact Hw |]. simpl.
  pose proof (step_keeps_cancelled ev t v Hw) as H1.
  destruct (step ev v) as [v1 o1]. simpl in H1.
  specialize (IH t v1 H1). destruct (run evs v1) as [v2 o2]. exact IH.
Qed.

Lemma run_cancels (evs : list Event) :
  forall v, storedTaskSound v ->
  List.NoDup (cancels (snd (run evs v))) /\
  (forall t, In t (cancels (snd (run evs v))) ->
     ~ wasCancelled t v /\ wasCancelled t (fst (run evs v))).
Proof.
  induction evs as [| ev evs IH]; intros v Hsound.
  - simpl. split; [constructor | intros t []].
  - simpl.
    pose proof (step_keeps_sound ev v Hsound) as Hs1.
    pose proof (fun t => step_cancels ev t v Hsound) as Hc1.
    pose proof (fun t => step_keeps_cancelled ev t v) as Hk1.
    destruct (step ev v) as [v1 o1]. simpl in *.
    specialize (IH v1 Hs1).
    pose proof (fun t => run_keeps_cancelled evs t v1) as Hk2.
    destruct (run evs v1) as [v2 o2]. simpl in *.
    destruct IH as [Hnd Hall].
    unfold cancels in *. rewrite omap_app. fold (cancels o1) (cancels o2) in *.
    split.
    + destruct (cancels o1) as [| t l] eqn:E1; [exact Hnd |].
      destruct (Hc1 t (or_introl eq_refl)) as (Heq & Hnot & _ & Hw1).
      injection Heq as ->. simpl. constructor; [| exact Hnd].
      intros Hin. destruct (Hall t Hin) as [Hnot2 _]. contradiction.
    + intros t Hin. apply in_app_or in Hin as [Hin | Hin].
      * destruct (Hc1 t Hin) as (_ & Hnot & _ & Hw1).
        split; [exact Hnot | apply Hk2, Hw1].
      * destruct (Hall t Hin) as [Hnot2 Hw2]. split; [| exact Hw2].
        intros Hw. apply Hnot2, Hk1, Hw.
Qed.

(** X27: whatever the order of requests and completions, [cancel()] is
    called at most once on any render task, and every task it was called on
    is marked cancelled at the end. *)
Theorem cancel_at_most_once_per_task (evs : list Event) (v : State) :
  calls v = [] ->
  renderTaskRef v = None ->
  List.NoDup (cancels (snd (run evs v))) /\
  (forall t, In t (cancels (snd (run evs v))) ->
     wasCancelled t (fst (run evs v))).
Proof.
  intros Hfresh Href.
  assert (Hsound : storedTaskSound v).
  { split.
    - intros id c Hc. rewrite Hfresh in Hc. discriminate Hc.
    - intros t Ht. congruence. }
  destruct (run_cancels evs v Hsound) as [Hnd Hall].
  split; [exact Hnd | intros t Hin; apply (Hall t Hin)].
Qed.

Lemma cancel_at_most_once_per_task_witness :
  cancels (snd (run [Request 1 1.2%Q; GetPageResolved 0; Request 2 1.2%Q;
                     RasterResolved 0; GetPageResolved 1; Request 3 1.2%Q;
                     Request 4 1.2%Q] ready)) = [0%nat; 1%nat] /\
  List.NoDup (cancels (snd (run [Request 1 1.2%Q; GetPageResolved 0;
                     Request 2 1.2%Q; RasterResolved 0; GetPageResolved 1;
                     Request 3 1.2%Q; Request 4 1.2%Q] ready))).
Proof.
  split; [reflexivity |].
  apply (cancel_at_most_once_per_task
           [Request 1 1.2%Q; GetPageResolved 0; Request 2 1.2%Q;
            RasterResolved 0; GetPageResolved 1; Request 3 1.2%Q;
            Request 4 1.2%Q] ready); reflexivity.
Defined.

End Cancellation.

(** ** The earlier viewer's keys *)

(** X28: outside text fields and without an external page, the viewer with
    tool support leaves the same state as the earlier viewer after any key,
    provided arrow-up finds the scroll container at its top and arrow-down
    at its bottom. *)
Theorem tool_version_agrees_with_earlier (p : Viewer.Props)
    (ev : Viewer.KeyboardEvent) (v : Viewer.State) :
  Viewer.externalCurrentPage p = None ->
  Viewer.target ev = Viewer.OtherTarget ->
  (Viewer.key ev = "ArrowUp"%string -> Viewer.atTop (Viewer.container ev) = true) ->
  (Viewer.key ev = "ArrowDown"%string ->
   Viewer.atBottom (Viewer.container ev) = true) ->
  fst (Viewer.handleKeyDown p ev v) = fst (Earlier.handleKeyDown p ev v).
Proof.
  intros Hx Ht Hup Hdown.
  unfold Viewer.handleKeyDown, Earlier.handleKeyDown, Viewer.goTo.
  rewrite Hx, Ht. destruct (Viewer.pdf v) as [doc |]; [| reflexivity].
  cbv zeta.
  destruct (String.eqb (Viewer.key ev) "ArrowLeft") eqn:EL.
  - apply String.eqb_eq in EL. rewrite EL. simpl.
    destruct (1 <? Viewer.activePage p v); reflexivity.
  - destruct (String.eqb (Viewer.key ev) "ArrowRight") eqn:ER.
    + apply String.eqb_eq in ER. rewrite ER. simpl.
      destruct (Viewer.activePage p v <? numPages doc); reflexivity.
    + destruct (String.eqb (Viewer.key ev) "ArrowUp") eqn:EU.
      * apply String.eqb_eq in EU. rewrite (Hup EU), andb_true_r. simpl.
        destruct (1 <? Viewer.activePage p v); reflexivity.
      * destruct (String.eqb (Viewer.key ev) "ArrowDown") eqn:ED.
        -- apply String.eqb_eq in ED. rewrite (Hdown ED), andb_true_r. simpl.
           destruct (Viewer.activePage p v <? numPages doc); reflexivity.
        -- simpl.
           destruct (String.eqb (Viewer.key ev) "+" || String.eqb (Viewer.key ev) "=");
             [reflexivity |].
           destruct (String.eqb (Viewer.key ev) "-"); reflexivity.
Qed.

Lemma tool_version_agrees_with_earlier_witness :
  fst (Viewer.handleKeyDown (Viewer.mkProps (Some fileA) None None cursor)
         (Viewer.mkKey "ArrowRight" Viewer.OtherTarget None) ready)
  = Viewer.setCurrentPage 2 ready.
Proof.
  rewrite (tool_version_agrees_with_earlier
             (Viewer.mkProps (Some fileA) None None cursor)
             (Viewer.mkKey "ArrowRight" Viewer.OtherTarget None) ready);
    [reflexivity | reflexivity | reflexivity | discriminate | discriminate].
Defined.

(** X29: in the earlier viewer an arrow key under an external page has no
    lasting effect: it calls no callback, so [App] never hears of it, and
    the mirroring effect puts the viewer's own page back to the external
    one. *)
Theorem earlier_keys_lost_when_controlled (a : App.State)
    (ev : Viewer.KeyboardEvent) (v : Viewer.State) :
  let r := Earlier.handleKeyDown (propsOf a) ev v in
  deliverAll (snd r) a = a /\
  Viewer.currentPage (syncCurrentPage (propsOf a) (fst r)) = App.currentPage a /\
  Viewer.activePage (propsOf a) (fst r) = App.currentPage a.
Proof.
  cbv zeta. unfold Earlier.handleKeyDown.
  assert (Hsync : forall w, Viewer.currentPage (syncCurrentPage (propsOf a) w)
                            = App.currentPage a).
  { intros w. unfold syncCurrentPage. simpl.
    destruct (App.currentPage a =? Viewer.currentPage w) eqn:E; simpl;
      [apply Z.eqb_eq in E; lia | reflexivity]. }
  destruct (Viewer.pdf v) as [doc |]; [| split; [reflexivity | split; [apply Hsync | reflexivity]]].
  cbv zeta.
  repeat match goal with
  | |- context [if ?b then _ else _] => destruct b
  end; (split; [reflexivity | split; [apply Hsync | reflexivity]]).
Qed.

(** ** Opening a document *)

(** X30: picking a file of MIME type [application/pdf] and loading it
    successfully puts [App] and the viewer on page 1 of the same document,
    with the page count of that document, the error cleared and the loading
    flags down, whatever was shown before; the zoom is kept. *)
Theorem open_document_resets_page_keeps_zoom (f : File) (d : PDFDocumentProxy)
    (s : System) :
  type f = "application/pdf"%string ->
  let s' := loadSettled (Viewer.LoadResolved d) (pickFile f s) in
  App.currentFile (fst s') = Some f /\
  App.pdf (fst s') = Some d /\ Viewer.pdf (snd s') = Some d /\
  App.currentPage (fst s') = 1 /\ Viewer.currentPage (snd s') = 1 /\
  App.totalPages (fst s') = numPages d /\
  App.error (fst s') = None /\
  App.loading (fst s') = false /\ Viewer.loading (snd s') = false /\
  App.scale (fst s') = App.scale (fst s) /\
  Viewer.scale (snd s') = Viewer.scale (snd s).
Proof.
  intros Hty. destruct s as [a v]. cbv zeta.
  unfold loadSettled, pickFile, inApp, App.handleFileChange. simpl.
  assert (E : isPDFFile f = true) by (apply isPDFFile_spec, Hty).
  rewrite E. simpl. repeat split.
Qed.

Lemma open_document_resets_page_keeps_zoom_witness :
  App.currentPage (fst (loadSettled (Viewer.LoadResolved doc5)
                          (pickFile fileB (applyIntent NextPage loaded)))) = 1.
Proof.
  apply (open_document_resets_page_keeps_zoom fileB doc5
           (applyIntent NextPage loaded)).
  reflexivity.
Defined.
